(** * Revenue & Cost Segments Dashboard: a model of LBB_DSS_AI_DASHBOARD.py

    The script fetches a company's segment breakdown, asks a language
    model for three pieces of text and for plotting code, and runs that
    code with [exec].  This development embeds the script's functions
    ([fetch_data], [run_llm], [clean_python_code], [segments_summary],
    [visualize_segments], [interpret_segments], [risk_analysis], [main])
    and states what they do on every input. *)

From Stdlib Require Import ZArith NArith Ascii String.
From stdpp Require Import gmap strings list.

Open Scope string_scope.
Open Scope list_scope.
Set Warnings "-register-all".

(** * Python strings *)

(** A Python [str] is a sequence of Unicode code points. *)
Abbreviation pystr := (list N).

(** The code points of an ASCII literal. *)
Definition py (s : string) : pystr :=
  map N_of_ascii (list_ascii_of_string s).

Module Str.

(** [str.isspace] on one code point: the characters [str.strip()]
    removes when it is called without an argument. *)
Definition isspace (c : N) : bool :=
  ((9 <=? c) && (c <=? 13) || (28 <=? c) && (c <=? 32)
   || (c =? 133) || (c =? 160) || (c =? 5760)
   || (8192 <=? c) && (c <=? 8202)
   || (c =? 8232) || (c =? 8233) || (c =? 8239) || (c =? 8287)
   || (c =? 12288))%N.

(** Membership in the character set given to [str.strip(chars)]. *)
Definition in_chars (chars : pystr) (c : N) : bool :=
  bool_decide (c ∈ chars).

Section Strip.
Variable p : N -> bool.

Fixpoint lstrip (s : pystr) : pystr :=
  match s with
  | [] => []
  | c :: t => if p c then lstrip t else s
  end.

Fixpoint rstrip (s : pystr) : pystr :=
  match s with
  | [] => []
  | c :: t =>
      match rstrip t with
      | [] => if p c then [] else [c]
      | r => c :: r
      end
  end.

(** [str.strip]: both ends. *)
Definition strip (s : pystr) : pystr := rstrip (lstrip s).
End Strip.

(** [old] is a prefix of [s]. *)
Fixpoint startswith (old s : pystr) : bool :=
  match old, s with
  | [], _ => true
  | _ :: _, [] => false
  | o :: os, c :: t => bool_decide (o = c) && startswith os t
  end.

(** [old in s]: some suffix of [s] starts with [old]. *)
Fixpoint contains (old s : pystr) : bool :=
  startswith old s ||
  match s with
  | [] => false
  | _ :: t => contains old t
  end.

(** The scan of [str.replace] for a non-empty [old]: left to right,
    occurrences do not overlap, the text put in is not scanned again.
    [skip] counts the characters of a matched occurrence still to be
    dropped. *)
Fixpoint replace_scan (old new : pystr) (skip : nat) (s : pystr) : pystr :=
  match s with
  | [] => []
  | c :: t =>
      match skip with
      | S k => replace_scan old new k t
      | O =>
          if startswith old s
          then new ++ replace_scan old new (length old - 1) t
          else c :: replace_scan old new 0 t
      end
  end.

(** [s.replace(old, new)].  With an empty [old] Python puts [new]
    before every character and at the end. *)
Definition replace (old new s : pystr) : pystr :=
  match old with
  | [] => new ++ flat_map (fun c => c :: new) s
  | _ :: _ => replace_scan old new 0 s
  end.

End Str.

(** * The sanitizer *)

(** [raw_code.strip().strip("```").replace("python", "").strip()] *)
Definition clean_python_code (raw_code : pystr) : pystr :=
  Str.strip Str.isspace
    (Str.replace (py "python") []
       (Str.strip (Str.in_chars (py "```"))
          (Str.strip Str.isspace raw_code))).

(** The reply the model is expected to give: the code inside a fence with
    a language tag. *)
Definition fenced (code : pystr) : pystr :=
  py "```python" ++ [10%N] ++ code ++ [10%N] ++ py "```".


(** * Exceptions, results and the two monads of the script *)

(** A raised Python exception: its class name and its argument. *)
Record exn := Exn { exn_class : string; exn_arg : pystr }.

Inductive result (A : Type) : Type :=
| Ok (a : A)
| Raise (e : exn).
Arguments Ok {A} a.
Arguments Raise {A} e.

#[global] Instance result_ret : MRet result := fun _ a => Ok a.
#[global] Instance result_bind : MBind result := fun _ _ f r =>
  match r with
  | Ok a => f a
  | Raise e => Raise e
  end.

(** Literals of generated code. *)
Inductive lit :=
| LInt (z : Z)
| LStr (s : pystr)
| LNone.

(** * Generated programs

    The text handed to [exec] is compiled and run by the interpreter.
    Programs are modelled in the fragment a plotting script is made of:
    imports, assignments, calls and attribute reads, and [def]s without
    nested definitions.  There are no [global] declarations, no loops
    and no exception handlers in the fragment. *)
Inductive expr :=
| ELit (l : lit)
| EName (x : string)
| EAttr (e : expr) (a : string)
| ECall (f : expr) (args : list expr).

(** Statements that may stand in a function body. *)
Inductive sstmt :=
| SAssign (x : string) (e : expr)      (* x = e *)
| SImport (m x : string)               (* import m as x *)
| SFromImport (m a x : string)         (* from m import a as x *)
| SExpr (e : expr).                    (* e *)

Inductive stmt :=
| Simple (s : sstmt)
| SDef (f : string) (params : list string) (body : list sstmt) (ret : expr).
    (* def f(params): body; return ret *)

Abbreviation program := (list stmt).

Inductive value :=
| VLit (l : lit)
| VModule (m : string)
| VNative (id : string)                (* an object of a library *)
| VFunc (params : list string) (body : list sstmt) (ret : expr).

(** A namespace is a Python [dict] keyed by names. *)
Abbreviation ns := (gmap string value).

(** The result is an exception of class [cls]. *)
Definition fails_with {A} (cls : string) (r : result A) : Prop :=
  exists arg, r = Raise (Exn cls arg).

(** What the page shows, in the order the script asks for it. *)
Inductive ui_event :=
| UTextInput (label : pystr)
| UButton (label : pystr)
| UHeader (s : pystr)
| UExpander (label : pystr)
| UMarkdown (s : pystr)
| UPyplot (fig : value).

(** The state a run threads through: the page so far and the prompts
    sent to the model so far (oldest first). *)
Record app_state := AppState { ui : list ui_event; llm_log : list pystr }.

Definition M (A : Type) : Type := app_state -> result A * app_state.

#[global] Instance M_ret : MRet M := fun _ a s => (Ok a, s).
#[global] Instance M_bind : MBind M := fun _ _ f m s =>
  match m s with
  | (Ok a, s') => f a s'
  | (Raise e, s') => (Raise e, s')
  end.

Definition lift {A} (r : result A) : M A := fun s => (r, s).
Definition emit (ev : ui_event) : M unit :=
  fun s => (Ok (), AppState (ui s ++ [ev]) (llm_log s)).

(** * JSON and the data frame *)

Inductive pynum :=
| PInt (z : Z)
| PFloat (m e : Z).                    (* the float m * 2^e *)

Inductive json :=
| JNull
| JBool (b : bool)
| JNum (n : pynum)
| JStr (s : pystr)
| JArr (l : list json)
| JObj (fields : list (pystr * json)). (* keys distinct, in document order *)

Inductive cell :=
| Cell (v : json)
| NaN.

Record Series := { s_name : pystr; s_values : list cell }.

(** A frame on the default index [0 .. nrows-1]. *)
Record DataFrame := { nrows : nat; columns : list (pystr * list cell) }.

Module Pd.

Fixpoint assoc {A} (k : pystr) (l : list (pystr * A)) : option A :=
  match l with
  | [] => None
  | (k', v) :: t => if decide (k = k') then Some v else assoc k t
  end.

Fixpoint assoc_set {A} (k : pystr) (v : A) (l : list (pystr * A))
  : list (pystr * A) :=
  match l with
  | [] => [(k, v)]
  | (k', v') :: t =>
      if decide (k = k') then (k, v) :: t else (k', v') :: assoc_set k v t
  end.

Definition is_array (j : json) : bool :=
  match j with JArr _ => true | _ => false end.

(** The entries the constructor is modelled on: scalars, and arrays
    that hold no array themselves. *)
Definition plain_entry (j : json) : bool :=
  match j with
  | JArr l => forallb (fun x => negb (is_array x)) l
  | JObj _ => false
  | _ => true
  end.

Definition array_lengths (fields : list (pystr * json)) : list nat :=
  omap (fun kv => match kv.2 with JArr l => Some (length l) | _ => None end)
       fields.

Definition column_of (n : nat) (j : json) : list cell :=
  match j with
  | JArr l => map Cell l
  | _ => replicate n (Cell j)
  end.

(** [pd.DataFrame(d)] for a dict of scalars and arrays: the arrays give
    the number of rows, the scalars are repeated on every row. *)
Definition of_dict (fields : list (pystr * json)) : result DataFrame :=
  match fields, array_lengths fields with
  | [], _ => Ok {| nrows := 0; columns := [] |}
  | _, [] =>
      Raise (Exn "ValueError"
               (py "If using all scalar values, you must pass an index"))
  | _, n :: ns =>
      if forallb (Nat.eqb n) ns
      then Ok {| nrows := n;
                 columns := map (fun kv => (kv.1, column_of n kv.2)) fields |}
      else Raise (Exn "ValueError"
                    (py "All arrays must be of the same length"))
  end.

(** [pd.DataFrame(s)] for a named series: one column, same index. *)
Definition of_series (s : Series) : DataFrame :=
  {| nrows := length (s_values s); columns := [(s_name s, s_values s)] |}.

(** [df[col]] *)
Definition getitem (df : DataFrame) (col : pystr) : result Series :=
  match assoc col (columns df) with
  | Some vs => Ok {| s_name := col; s_values := vs |}
  | None => Raise (Exn "KeyError" col)
  end.

(** The values of a series on the index [0 .. n-1]: labels the series
    lacks give [NaN]. *)
Definition reindex (n : nat) (vs : list cell) : list cell :=
  map (fun i => default NaN (vs !! i)) (seq 0 n).

(** [df[col] = s]: the series is aligned on the frame's index; a frame
    whose index is empty takes the index of a non-empty series. *)
Definition setitem (df : DataFrame) (col : pystr) (s : Series) : DataFrame :=
  let n := if (nrows df =? 0)%nat then length (s_values s) else nrows df in
  {| nrows := n;
     columns := assoc_set col (reindex n (s_values s))
                  (map (fun kc => (kc.1, reindex n kc.2)) (columns df)) |}.

(** The cell of column [col] on row [i]. *)
Definition at_ (df : DataFrame) (i : nat) (col : pystr) : option cell :=
  vs ← assoc col (columns df); vs !! i.

End Pd.

(** * The world outside the script *)

Record Response := { status_code : Z; body : option json }.

(** An execution frame: its globals and its locals.  [f_locals = None]
    is a frame whose local namespace is the globals dict itself. *)
Record frame := Frame { f_globals : ns; f_locals : option ns }.

(** What running generated code works on: the frame of its module-level
    code, the namespace of the builtins module, and the script's page
    and prompt log; the libraries the code calls can reach all three. *)
Record run_state := RunState {
  r_frame : frame;
  r_builtins : ns;
  r_app : app_state
}.

(** Everything the script reaches but does not define: the data service,
    the model, the libraries and the Python interpreter's own tables. *)
Record World := {
  (** [requests.get(url, headers=HEADERS, params=params)] *)
  http_get : pystr -> option json -> result Response;
  (** [llm.invoke(prompt).content], given the prompts sent before *)
  llm_invoke : list pystr -> pystr -> result pystr;
  (** [df.to_string(index=False)] *)
  to_string : DataFrame -> pystr;
  (** [pd.DataFrame(data)] on data outside the modelled entries *)
  pd_other : json -> result DataFrame;
  (** [st.pyplot(fig)] *)
  st_pyplot : value -> result ();
  (** the compiler [exec] applies to a source text *)
  compile : pystr -> result program;
  (** the namespace of the [builtins] module when generated code
      starts *)
  builtins : ns;
  (** the modules an [import] finds besides [__main__] and [builtins],
      with their attributes *)
  sys_modules : gmap string ns;
  (** calling a builtin or a library object from generated code: the
      call may write to the dicts of the running code ([exec],
      [globals()], [locals()]) and to the builtins module, draw on the
      page and send prompts *)
  native_call : string -> list value -> run_state -> result value * run_state;
  (** reading an attribute of a library object *)
  native_attr : string -> string -> option value;
  (** the call depth left when [exec] starts *)
  recursion_limit : nat
}.

(** * The interpreter behind [exec] *)

Module Interp.

(** Computations on a state [S] that may raise; the state outlives an
    exception. *)
Definition ST (S A : Type) : Type := S -> result A * S.

#[local] Instance ST_ret {S} : MRet (ST S) := fun _ a σ => (Ok a, σ).
#[local] Instance ST_bind {S} : MBind (ST S) := fun _ _ f m σ =>
  match m σ with
  | (Ok a, σ') => f a σ'
  | (Raise e, σ') => (Raise e, σ')
  end.

Definition run_all {S A} (step : A -> ST S ()) : list A -> ST S () :=
  fix go (l : list A) : ST S () :=
    match l with
    | [] => mret ()
    | a :: t => _ ← step a; go t
    end.

Definition eval_list {S} (ev : expr -> ST S value)
  : list expr -> ST S (list value) :=
  fix go (l : list expr) : ST S (list value) :=
    match l with
    | [] => mret []
    | a :: t => v ← ev a; vs ← go t; mret (v :: vs)
    end.

Definition read {S A} (f : S -> result A) : ST S A := fun σ => (f σ, σ).
Definition update {S} (f : S -> S) : ST S () := fun σ => (Ok (), f σ).
Definition raise {S A} (e : exn) : ST S A := fun σ => (Raise e, σ).

(** The names a statement binds. *)
Definition binds (s : sstmt) : list string :=
  match s with
  | SAssign x _ => [x]
  | SImport _ x => [x]
  | SFromImport _ _ x => [x]
  | SExpr _ => []
  end.

(** The name whose value the evaluation of an expression asks for
    first. *)
Fixpoint first_load (e : expr) : option string :=
  match e with
  | ELit _ => None
  | EName x => Some x
  | EAttr e' _ => first_load e'
  | ECall f _ => first_load f
  end.

Definition stmt_expr (s : sstmt) : option expr :=
  match s with
  | SAssign _ e => Some e
  | SExpr e => Some e
  | _ => None
  end.

Definition stmt_first_load (s : sstmt) : option string :=
  stmt_expr s ≫= first_load.

Section WithWorld.
Variable w : World.
(** The globals of the script, which is the module [__main__]. *)
Variable app : ns.

(** The module an [import] finds, when the namespace of the builtins
    module is [B]. *)
Definition find_module (B : ns) (m : string) : option ns :=
  if decide (m = "__main__") then Some app
  else if decide (m = "builtins") then Some B
  else sys_modules w !! m.

(** Globals, then builtins: how a function resolves a name that is
    not one of its locals, and the end of a module-level lookup.
    The builtins [B] are the namespace of the builtins module as the
    run has left it; a globals dict whose [__builtins__] entry was
    replaced by another object is not modelled. *)
Definition load_global (B G : ns) (x : string) : result value :=
  match G !! x with
  | Some v => Ok v
  | None =>
      match B !! x with
      | Some v => Ok v
      | None => Raise (Exn "NameError" (py x))
      end
  end.

(** Module-level code: locals, then globals, then builtins. *)
Definition load_name (B : ns) (fr : frame) (x : string) : result value :=
  match f_locals fr ≫= (fun L : ns => L !! x) with
  | Some v => Ok v
  | None => load_global B (f_globals fr) x
  end.

(** Module-level code binds in the local namespace. *)
Definition store_name (fr : frame) (x : string) (v : value) : frame :=
  match f_locals fr with
  | Some L => Frame (f_globals fr) (Some (<[x:=v]> L))
  | None => Frame (<[x:=v]> (f_globals fr)) None
  end.

(** Inside a function: a name the body binds is local, any other
    name is global. *)
Definition load_in_function (B G : ns) (locals : list string) (F : ns)
    (x : string) : result value :=
  if bool_decide (x ∈ locals)
  then match F !! x with
       | Some v => Ok v
       | None => Raise (Exn "UnboundLocalError" (py x))
       end
  else load_global B G x.

Definition getattr (B : ns) (v : value) (a : string) : result value :=
  let found :=
    match v with
    | VModule m => find_module B m ≫= (fun attrs : ns => attrs !! a)
    | VNative id => native_attr w id a
    | _ => None
    end in
  match found with
  | Some r => Ok r
  | None => Raise (Exn "AttributeError" (py a))
  end.

Section Eval.
Context {S : Type}.
Variable call : value -> list value -> ST S value.
Variable builtins_now : S -> ns.
Variable load : string -> S -> result value.
Variable store : string -> value -> S -> S.

Fixpoint eval_expr (e : expr) : ST S value :=
  match e with
  | ELit l => mret (VLit l)
  | EName x => read (load x)
  | EAttr e' a =>
      v ← eval_expr e'; read (fun σ => getattr (builtins_now σ) v a)
  | ECall f args =>
      fv ← eval_expr f;
      vs ← eval_list eval_expr args;
      call fv vs
  end.

Definition exec_sstmt (s : sstmt) : ST S () :=
  match s with
  | SAssign x e => v ← eval_expr e; update (store x v)
  | SImport m x =>
      B ← read (fun σ => Ok (builtins_now σ));
      match find_module B m with
      | Some _ => update (store x (VModule m))
      | None => raise (Exn "ModuleNotFoundError" (py m))
      end
  | SFromImport m a x =>
      B ← read (fun σ => Ok (builtins_now σ));
      match find_module B m with
      | Some attrs =>
          match attrs !! a with
          | Some v => update (store x v)
          | None => raise (Exn "ImportError" (py a))
          end
      | None => raise (Exn "ModuleNotFoundError" (py m))
      end
  | SExpr e => _ ← eval_expr e; mret ()
  end.
End Eval.

Definition call_value
    (call_def : list string -> list sstmt -> expr -> list value
                -> ST run_state value)
    (f : value) (args : list value) : ST run_state value :=
  match f with
  | VFunc params body ret => call_def params body ret args
  | VNative id => native_call w id args
  | _ => raise (Exn "TypeError" (py "object is not callable"))
  end.

(** A function body works on its own locals [F] beside the state of
    the run; its globals are the globals dict of the run. *)
Definition in_function (call : value -> list value -> ST run_state value)
    (f : value) (args : list value) : ST (ns * run_state) value :=
  fun Fσ => let (r, σ') := call f args Fσ.2 in (r, (Fσ.1, σ')).

Definition load_local (locals : list string) (x : string)
    (Fσ : ns * run_state) : result value :=
  load_in_function (r_builtins Fσ.2) (f_globals (r_frame Fσ.2)) locals
    Fσ.1 x.

Definition store_local (x : string) (v : value) (Fσ : ns * run_state)
  : ns * run_state :=
  (<[x:=v]> Fσ.1, Fσ.2).

(** The statements of a function body. *)
Definition run_body (call : value -> list value -> ST run_state value)
    (locals : list string) : list sstmt -> ST (ns * run_state) () :=
  run_all (exec_sstmt (in_function call) (fun Fσ => r_builtins Fσ.2)
             (load_local locals) store_local).

(** Calling a [def] of the generated code: a fresh local namespace
    holding the arguments. *)
Fixpoint call_function (depth : nat) (params : list string)
    (body : list sstmt) (ret : expr) (args : list value)
  : ST run_state value :=
  match depth with
  | O => raise (Exn "RecursionError"
                  (py "maximum recursion depth exceeded"))
  | S d =>
      if bool_decide (length params = length args)
      then
        let locals := params ++ flat_map binds body in
        let call := call_value (call_function d) in
        fun σ =>
          let (r, Fσ) :=
            (_ ← run_body call locals body;
             eval_expr (in_function call) (fun Fσ => r_builtins Fσ.2)
               (load_local locals) ret)
              (list_to_map (zip params args), σ) in
          (r, Fσ.2)
      else raise (Exn "TypeError" (py "wrong number of arguments"))
  end.

Definition load_module_level (x : string) (σ : run_state) : result value :=
  load_name (r_builtins σ) (r_frame σ) x.

Definition store_module_level (x : string) (v : value) (σ : run_state)
  : run_state :=
  RunState (store_name (r_frame σ) x v) (r_builtins σ) (r_app σ).

Definition call_module_level : value -> list value -> ST run_state value :=
  call_value (call_function (recursion_limit w)).

Definition exec_stmt (s : stmt) : ST run_state () :=
  match s with
  | Simple s' =>
      exec_sstmt call_module_level r_builtins load_module_level
        store_module_level s'
  | SDef f params body ret =>
      update (store_module_level f (VFunc params body ret))
  end.

Definition exec_program : program -> ST run_state () :=
  run_all exec_stmt.

(** [exec] puts a reference to the builtins module into a globals
    dict that has none. *)
Definition with_builtins (G : ns) : ns :=
  match G !! "__builtins__" with
  | Some _ => G
  | None => <["__builtins__" := VModule "builtins"]> G
  end.

(** [exec(code, globals, locals)] called from the frame [caller]:
    without arguments the code runs in the caller's namespaces, with
    globals only the locals are the globals, with both the two dicts
    are used as given.  The result is the frame after the run; the
    page and the prompt log are as the run left them, also when it
    raised. *)
Definition py_exec (caller : frame) (code : pystr)
    (globals locals : option ns) : M frame :=
  fun s =>
    let fr :=
      match globals, locals with
      | None, None => caller
      | None, Some L => Frame (f_globals caller) (Some L)
      | Some G, None => Frame G None
      | Some G, Some L => Frame G (Some L)
      end in
    match compile w code with
    | Raise e => (Raise e, s)
    | Ok prog =>
        match exec_program prog
                (RunState
                   (Frame (with_builtins (f_globals fr)) (f_locals fr))
                   (builtins w) s)
        with
        | (Ok _, σ) => (Ok (r_frame σ), r_app σ)
        | (Raise e, σ) => (Raise e, r_app σ)
        end
    end.

(** A call of [def f(params): body; return ret] with [args], made at
    depth [S d] in the state [σ1], gets as far as asking for the
    name [m], in the state [σ2]: the statements before the one that
    reads [m] run without a fault. *)
Definition reaches_read (d : nat) (params : list string)
    (body : list sstmt) (ret : expr) (args : list value) (m : string)
    (σ1 σ2 : run_state) : Prop :=
  let locals := params ++ flat_map binds body in
  let call := call_value (call_function d) in
  let F0 : ns := list_to_map (zip params args) in
  (exists before s rest F,
      body = before ++ s :: rest
      /\ run_body call locals before (F0, σ1) = (Ok (), (F, σ2))
      /\ stmt_first_load s = Some m)
  \/ (exists F, run_body call locals body (F0, σ1) = (Ok (), (F, σ2))
                /\ first_load ret = Some m).

End WithWorld.
End Interp.

(** * The script *)

Definition nl : pystr := [10%N].

(** The text of a multi-line literal, from its lines. *)
Fixpoint join_lines (ls : list pystr) : pystr :=
  match ls with
  | [] => []
  | [l] => l
  | l :: t => l ++ nl ++ join_lines t
  end.

Definition BASE_URL : pystr := py "https://api.sectors.app/v1".

(** [resp.raise_for_status()] *)
Definition raise_for_status (resp : Response) : result () :=
  if ((400 <=? status_code resp) && (status_code resp <? 600))%Z
  then Raise (Exn "HTTPError" [])
  else Ok ().

(** [resp.json()] *)
Definition resp_json (resp : Response) : result json :=
  match body resp with
  | Some j => Ok j
  | None => Raise (Exn "JSONDecodeError" [])
  end.

(** The scan of [str.format] over a template whose only field is
    [{data}]: doubled braces stand for a brace, a field of another name
    is a [KeyError].  [field] holds the name read so far inside braces.
    Conversions and format specifications are not modelled; the
    templates of the script have none. *)
Fixpoint format_scan (data : pystr) (field : option pystr) (s : pystr)
  : result pystr :=
  match s with
  | [] =>
      match field with
      | None => Ok []
      | Some _ => Raise (Exn "ValueError" (py "expected '}' before end of string"))
      end
  | c :: t =>
      match field with
      | Some name =>
          if (c =? 125)%N
          then if decide (name = py "data")
               then r ← format_scan data None t; Ok (data ++ r)
               else Raise (Exn "KeyError" name)
          else format_scan data (Some (name ++ [c])) t
      | None =>
          if (c =? 123)%N then
            match t with
            | c' :: t' =>
                if (c' =? 123)%N
                then r ← format_scan data None t'; Ok (c :: r)
                else format_scan data (Some []) t
            | [] => Raise (Exn "ValueError" (py "Single '{' encountered in format string"))
            end
          else if (c =? 125)%N then
            match t with
            | c' :: t' =>
                if (c' =? 125)%N
                then r ← format_scan data None t'; Ok (c :: r)
                else Raise (Exn "ValueError" (py "Single '}' encountered in format string"))
            | [] => Raise (Exn "ValueError" (py "Single '}' encountered in format string"))
            end
          else r ← format_scan data None t; Ok (c :: r)
      end
  end.

(** [PromptTemplate.from_template(template).format(data=data)] *)
Definition format_template (template data : pystr) : result pystr :=
  format_scan data None template.

Definition summary_prompt : pystr := join_lines
  [ py "";
    py "    Anda adalah analis keuangan.";
    py "    Berikut adalah breakdown revenue dan cost perusahaan:";
    py "";
    py "    {data}";
    py "";
    py "    Buat insight singkat dalam 3 poin:";
    py "    1. Segmen revenue terbesar dan kontribusinya.";
    py "    2. Apakah ada risiko ketergantungan pada satu segmen?";
    py "    3. Analisis keseimbangan revenue vs cost.";
    py "    " ].

(** [summary_prompt] with the table in the place of [{data}]. *)
Definition summary_prompt_with (table : pystr) : pystr := join_lines
  [ py "";
    py "    Anda adalah analis keuangan.";
    py "    Berikut adalah breakdown revenue dan cost perusahaan:";
    py "";
    py "    " ++ table;
    py "";
    py "    Buat insight singkat dalam 3 poin:";
    py "    1. Segmen revenue terbesar dan kontribusinya.";
    py "    2. Apakah ada risiko ketergantungan pada satu segmen?";
    py "    3. Analisis keseimbangan revenue vs cost.";
    py "    " ].

Definition visualize_prompt (table ticker : pystr) : pystr := join_lines
  [ py " ";
    py "    Anda adalah seorang programmer Python yang ahli dalam visualisasi data.";
    py "    Berikut adalah data segmen pendapatan dan biaya perusahaan:";
    py "    " ++ table;
    py "    ";
    py "    Buat sebuah skrip Python menggunakan matplotlib untuk menghasilkan bar plot yang rapih.";
    py "    Instruksi:";
    py "    - Sumbu X adalah 'source' (segmen pendapatan/biaya)";
    py "    - Sumbu Y adalah 'value' dalam triliun IDR (gunakan pembagian value/1e12)";
    py "    - Gunakan warna berbeda untuk membedakan setiap segmen";
    py "    - Putar label X agar lebih terbaca";
    py "    - Beri judul 'Revenue & Cost Segments " ++ ticker ++ py "'";
    py "    ";
    py "    Tulis HANYA kode python yang bisa langsung dieksekusi. Jangan sertakan penjelasan apapun.";
    py "    Pastikan untuk taruh hasilnya dalam variabel bernama 'fig' dan pastikan untuk mengimpor semua library yang diperlukan.";
    py "    " ].

Definition interpret_prompt : pystr := join_lines
  [ py "";
    py "    Anda adalah seorang analis keuangan yang handal.";
    py "    Berdasarkan data segmen pendapatan dan biaya berikut (dalam miliar rupiah):";
    py "";
    py "    {data}";
    py "";
    py "    Analisis tren utama yang muncul dari data tersebut, meliputi:";
    py "    1. Apakah revenue tersebar (diversifikasi) atau terkonsentrasi pada 1"
      ++ [8211%N] ++ py "2 segmen? ";
    py "    2. Apakah ada gap besar antara revenue dan cost pada segmen tertentu?";
    py "    3. Apakah ada indikasi anomali pada segmen tertentu?";
    py "    Sajikan analisis dalam 3 poin utama. Tuliskan dalam bahasa yang singkat, padat, dan jelas.";
    py "    " ].

(** [interpret_prompt] with the table in the place of [{data}]. *)
Definition interpret_prompt_with (table : pystr) : pystr := join_lines
  [ py "";
    py "    Anda adalah seorang analis keuangan yang handal.";
    py "    Berdasarkan data segmen pendapatan dan biaya berikut (dalam miliar rupiah):";
    py "";
    py "    " ++ table;
    py "";
    py "    Analisis tren utama yang muncul dari data tersebut, meliputi:";
    py "    1. Apakah revenue tersebar (diversifikasi) atau terkonsentrasi pada 1"
      ++ [8211%N] ++ py "2 segmen? ";
    py "    2. Apakah ada gap besar antara revenue dan cost pada segmen tertentu?";
    py "    3. Apakah ada indikasi anomali pada segmen tertentu?";
    py "    Sajikan analisis dalam 3 poin utama. Tuliskan dalam bahasa yang singkat, padat, dan jelas.";
    py "    " ].

(** [risk_prompt] with the table in the place of [{data}]. *)
Definition risk_prompt_with (table : pystr) : pystr := join_lines
  [ py "";
    py "    Anda adalah seorang analis risiko keuangan.";
    py "    Berdasarkan data pendapatan dan biaya berikut:";
    py "";
    py "    " ++ table;
    py "";
    py "    Identifikasi 2-3 potensi risiko utama yang muncul dari pola perbandingan rasio pendapatan dan biaya operasional.";
    py "    " ].

Definition risk_prompt : pystr := join_lines
  [ py "";
    py "    Anda adalah seorang analis risiko keuangan.";
    py "    Berdasarkan data pendapatan dan biaya berikut:";
    py "";
    py "    {data}";
    py "";
    py "    Identifikasi 2-3 potensi risiko utama yang muncul dari pola perbandingan rasio pendapatan dan biaya operasional.";
    py "    " ].

Section Script.
Variable w : World.
(** The globals of the script's own module. *)
Variable app : ns.

(** One call of the model; the prompt is logged whether or not the
    call succeeds. *)
Definition llm (prompt : pystr) : M pystr := fun s =>
  (llm_invoke w (llm_log s) prompt, AppState (ui s) (llm_log s ++ [prompt])).

Definition fetch_data (endpoint : pystr) (params : option json)
  : result json :=
  let url := BASE_URL ++ py "/" ++ endpoint in
  resp ← http_get w url params;
  _ ← raise_for_status resp;
  resp_json resp.

Definition run_llm (prompt_template : pystr) (data : DataFrame) : M pystr :=
  prompt ← lift (format_template prompt_template (to_string w data));
  llm prompt.

(** [pd.DataFrame(data)] on a parsed response. *)
Definition pd_DataFrame (data : json) : result DataFrame :=
  match data with
  | JObj fields =>
      if forallb (fun kv => Pd.plain_entry kv.2) fields
      then Pd.of_dict fields
      else pd_other w data
  | _ => pd_other w data
  end.

Definition segments_summary (ticker : pystr) : M DataFrame :=
  _ ← emit (UHeader ([127970%N] ++ py " Segments Summary for " ++ ticker));
  raw ← lift (fetch_data (py "company/get-segments/" ++ ticker ++ py "/") None);
  raw_data_segments ← lift (pd_DataFrame raw);
  breakdown ← lift (Pd.getitem raw_data_segments (py "revenue_breakdown"));
  let data_segments := Pd.of_series breakdown in
  symbol ← lift (Pd.getitem raw_data_segments (py "symbol"));
  let data_segments := Pd.setitem data_segments (py "symbol") symbol in
  year ← lift (Pd.getitem raw_data_segments (py "financial_year"));
  let data_segments := Pd.setitem data_segments (py "financial_year") year in
  summary ← run_llm summary_prompt data_segments;
  _ ← emit (UExpander ([128161%N] ++ py " Ringkasan Kinerja Finansial"));
  _ ← emit (UMarkdown summary);
  mret data_segments.

(** The frame of [visualize_segments] when it calls [exec]. *)
Definition visualize_frame (ticker prompt code : pystr) : frame :=
  Frame app
    (Some (<["ticker" := VLit (LStr ticker)]>
           (<["data_segments" := VNative "DataFrame"]>
            (<["data_sample" := VNative "DataFrame"]>
             (<["prompt" := VLit (LStr prompt)]>
              (<["code" := VLit (LStr code)]>
               (<["exec_locals" := VNative "dict"]> ∅))))))).

(** [d[key]] on a dict. *)
Definition dict_getitem (d : ns) (key : string) : result value :=
  match d !! key with
  | Some v => Ok v
  | None => Raise (Exn "KeyError" (py key))
  end.

Definition visualize_segments (ticker : pystr) (data_segments : DataFrame)
  : M () :=
  let data_sample := data_segments in
  let prompt := visualize_prompt (to_string w data_sample) ticker in
  reply ← llm prompt;
  let code := clean_python_code reply in
  _ ← emit (UExpander ([128202%N] ++ py " Visualisasi Tren Pendapatan"));
  let exec_locals : ns := ∅ in
  after ← Interp.py_exec w app (visualize_frame ticker prompt code) code
            (Some ∅) (Some exec_locals);
  let exec_locals := default ∅ (f_locals after) in
  fig ← lift (dict_getitem exec_locals "fig");
  _ ← lift (st_pyplot w fig);
  emit (UPyplot fig).

Definition interpret_segments (data_segments : DataFrame) : M () :=
  interpret ← run_llm interpret_prompt data_segments;
  _ ← emit (UExpander ([128270%N] ++ py " Interpretasi Segmen"));
  emit (UMarkdown interpret).

Definition risk_analysis (data_segments : DataFrame) : M () :=
  risks ← run_llm risk_prompt data_segments;
  _ ← emit (UExpander ([9888%N; 65039%N] ++ py " Analisis Risiko Keuangan"));
  emit (UMarkdown risks).

(** The page once the header of [segments_summary] is drawn. *)
Definition after_header (ticker : pystr) (s : app_state) : app_state :=
  AppState
    (ui s ++ [UHeader ([127970%N] ++ py " Segments Summary for " ++ ticker)])
    (llm_log s).

(** The address [segments_summary] asks. *)
Definition segments_url (ticker : pystr) : pystr :=
  BASE_URL ++ py "/" ++ (py "company/get-segments/" ++ ticker ++ py "/").

(** The page once both widgets of [main] are drawn. *)
Definition after_widgets (s : app_state) : app_state :=
  AppState
    ((ui s ++ [UTextInput (py "Masukkan Ticker (misalnya: BBRI, ASII, BBCA, HMSP)")])
       ++ [UButton ([128269%N] ++ py " Lihat Insight")])
    (llm_log s).

(** The state in which [exec] runs: the chart code was asked for with
    [prompt] and the chart's expander is open. *)
Definition chart_opened (s : app_state) (prompt : pystr) : app_state :=
  AppState
    (ui s ++ [UExpander ([128202%N] ++ py " Visualisasi Tren Pendapatan")])
    (llm_log s ++ [prompt]).

(** [ticker] is what the user typed and [clicked] whether the button
    was pressed on this run. *)
Definition main (ticker : pystr) (clicked : bool) : M () :=
  _ ← emit (UTextInput (py "Masukkan Ticker (misalnya: BBRI, ASII, BBCA, HMSP)"));
  _ ← emit (UButton ([128269%N] ++ py " Lihat Insight"));
  if clicked then
    data_segments ← segments_summary ticker;
    _ ← visualize_segments ticker data_segments;
    _ ← interpret_segments data_segments;
    risk_analysis data_segments
  else mret ().

(** One of the four sections raises [e] and leaves the state [s'],
    the sections before it having returned. *)
Definition section_fails (ticker : pystr) (s : app_state) (e : exn)
    (s' : app_state) : Prop :=
  segments_summary ticker s = (Raise e, s')
  \/ exists df s2,
      segments_summary ticker s = (Ok df, s2)
      /\ (visualize_segments ticker df s2 = (Raise e, s')
          \/ exists s3,
              visualize_segments ticker df s2 = (Ok (), s3)
              /\ (interpret_segments df s3 = (Raise e, s')
                  \/ exists s4,
                      interpret_segments df s3 = (Ok (), s4)
                      /\ risk_analysis df s4 = (Raise e, s'))).

End Script.

(** [s'] continues [s]: it has the page and the prompts of [s] with more
    at the end, at most [n] more prompts. *)
Definition continues (s s' : app_state) (n : nat) : Prop :=
  exists evs ps,
    ui s' = ui s ++ evs /\ llm_log s' = llm_log s ++ ps /\ length ps <= n.

(** A computation of the interpreter respects a relation [R] between
    states of the page: the page it leaves is related to the page it
    found, whether it returns or raises. *)
Definition respects {S A : Type} (R : app_state -> app_state -> Prop)
    (π : S -> app_state) (m : Interp.ST S A) : Prop :=
  forall σ, R (π σ) (π (m σ).2).

(** The library calls the generated code can make only add to the page
    and send the model nothing. *)
Definition natives_only_draw (w : World) : Prop :=
  forall (id : string) (args : list value) (σ : run_state),
    continues (r_app σ) (r_app (native_call w id args σ).2) 0.

(** The frame constructor, given a dict, makes columns of its keys only. *)
Definition pd_other_keeps_keys (w : World) : Prop :=
  forall fields df col,
    pd_other w (JObj fields) = Ok df ->
    Pd.assoc col fields = None ->
    Pd.assoc col (columns df) = None.

(** The response of the data service, in the shape the script expects. *)
Definition segment_json (sv : pystr * pynum) : json :=
  JObj [(py "source", JStr sv.1); (py "value", JNum sv.2)].

Definition expected_response (symbol : pystr) (year : Z)
    (segments : list (pystr * pynum)) : json :=
  JObj [(py "symbol", JStr symbol);
        (py "financial_year", JNum (PInt year));
        (py "revenue_breakdown", JArr (map segment_json segments))].

Definition is_scalar (j : json) : bool :=
  match j with
  | JArr _ | JObj _ => false
  | _ => true
  end.

(** A parsed object of that shape, whatever the order of its keys: the
    keys are distinct, [revenue_breakdown] is the array of segments and
    every other entry, [symbol] and [financial_year] among them, is a
    scalar. *)
Definition expected_shape (fields : list (pystr * json)) (symbol : pystr)
    (year : Z) (segments : list (pystr * pynum)) : Prop :=
  NoDup (map fst fields)
  /\ Pd.assoc (py "symbol") fields = Some (JStr symbol)
  /\ Pd.assoc (py "financial_year") fields = Some (JNum (PInt year))
  /\ Pd.assoc (py "revenue_breakdown") fields
     = Some (JArr (map segment_json segments))
  /\ Forall (fun kv : pystr * json =>
               kv.1 = py "revenue_breakdown" \/ is_scalar kv.2 = true) fields.

(** The dataset [segments_summary] builds from it. *)
Definition expected_frame (symbol : pystr) (year : Z)
    (segments : list (pystr * pynum)) : DataFrame :=
  let n := length segments in
  {| nrows := n;
     columns :=
       [(py "revenue_breakdown", map (fun sv => Cell (segment_json sv)) segments);
        (py "symbol", replicate n (Cell (JStr symbol)));
        (py "financial_year", replicate n (Cell (JNum (PInt year))))] |}.

(** A text without braces. *)
Definition brace_free (s : pystr) : bool :=
  forallb (fun c => negb ((c =? 123) || (c =? 125))%N) s.

(** * A concrete world

    The data service of scenario 1 of the specification, a model that
    answers from a list, and the compiler's result on a handful of
    source texts. *)
Module Demo.

Definition segments : list (pystr * pynum) :=
  [(py "Retail Banking", PFloat 5000000000000 0);
   (py "Corporate Banking", PFloat 3000000000000 0)].

Definition bbca : json := expected_response (py "BBCA") 2023 segments.

(** The dataset built from [bbca]. *)
Definition frame_bbca : DataFrame := expected_frame (py "BBCA") 2023 segments.

Definition no_breakdown : json :=
  JObj [(py "symbol", JStr (py "BBCA"));
        (py "financial_year", JNum (PInt 2023))].

Definition plt_figure : expr := ECall (EAttr (EName "plt") "figure") [].

(** import matplotlib.pyplot as plt / fig = plt.figure() *)
Definition src_good : pystr :=
  join_lines [py "import matplotlib.pyplot as plt"; py "fig = plt.figure()"].
Definition ast_good : program :=
  [Simple (SImport "matplotlib.pyplot" "plt"); Simple (SAssign "fig" plt_figure)].

(** fig = plt.figure(), with no import *)
Definition src_unbound : pystr := py "fig = plt.figure()".
Definition ast_unbound : program := [Simple (SAssign "fig" plt_figure)].

(** import matplotlib.pyplot as plt / plt.figure() *)
Definition src_no_fig : pystr :=
  join_lines [py "import matplotlib.pyplot as plt"; py "plt.figure()"].
Definition ast_no_fig : program :=
  [Simple (SImport "matplotlib.pyplot" "plt"); Simple (SExpr plt_figure)].

(** import matplotlib.pyplot as plt / def make(): return plt.figure()
    / fig = make() *)
Definition src_def : pystr :=
  join_lines [py "import matplotlib.pyplot as plt";
              py "def make():";
              py "    return plt.figure()";
              py "fig = make()"].
Definition ast_def : program :=
  [Simple (SImport "matplotlib.pyplot" "plt");
   SDef "make" [] [] plt_figure;
   Simple (SAssign "fig" (ECall (EName "make") []))].

Definition compile_table : list (pystr * program) :=
  [(src_good, ast_good); (src_unbound, ast_unbound);
   (src_no_fig, ast_no_fig); (src_def, ast_def)].

Definition compile_text (code : pystr) : result program :=
  match Pd.assoc code compile_table with
  | Some p => Ok p
  | None => Raise (Exn "SyntaxError" (py "invalid syntax"))
  end.

Definition pyplot : ns :=
  {[ "figure" := VNative "matplotlib.pyplot.figure" ]}.

(** The world: the service answers [payload] with status 200, the
    model gives [replies n] to its call number [n]. *)
Definition world (payload : json) (replies : nat -> result pystr) : World :=
  {| http_get := fun _ _ => Ok {| status_code := 200; body := Some payload |};
     llm_invoke := fun log _ => replies (length log);
     to_string := fun _ => py "<table>";
     pd_other := fun _ =>
       Raise (Exn "ValueError" (py "DataFrame constructor not properly called!"));
     st_pyplot := fun fig =>
       match fig with
       | VNative "Figure" => Ok ()
       | _ => Raise (Exn "AttributeError" (py "savefig"))
       end;
     compile := compile_text;
     builtins := {[ "len" := VNative "len"; "print" := VNative "print" ]};
     sys_modules := {[ "matplotlib.pyplot" := pyplot ]};
     native_call := fun id _ σ =>
       (if decide (id = "matplotlib.pyplot.figure")
        then Ok (VNative "Figure")
        else Raise (Exn "TypeError" (py "object is not callable")), σ);
     native_attr := fun _ _ => None;
     recursion_limit := 1000 |}.

(** A model that answers every text request and gives [code], fenced,
    when asked for the chart. *)
Definition replies_with (code : pystr) (n : nat) : result pystr :=
  match n with
  | 1 => Ok (fenced code)
  | _ => Ok (py "1. ... 2. ... 3. ...")
  end.

(** A model whose second call, the request for the chart code, fails. *)
Definition replies_failing (n : nat) : result pystr :=
  match n with
  | 1 => Raise (Exn "APIConnectionError" [])
  | _ => Ok (py "1. ... 2. ... 3. ...")
  end.

(** Globals of the script's module: it imports pyplot as [plt] and
    holds the keys. *)
Definition app_globals : ns :=
  {[ "plt" := VModule "matplotlib.pyplot";
     "GROQ_API_KEY" := VLit (LStr (py "gsk"));
     "SECTORS_API_KEY" := VLit (LStr (py "key")) ]}.

Definition start : app_state := AppState [] [].

Definition w_good : World := world bbca (replies_with src_good).
Definition w_unbound : World := world bbca (replies_with src_unbound).
Definition w_no_fig : World := world bbca (replies_with src_no_fig).
Definition w_def : World := world bbca (replies_with src_def).
Definition w_syntax : World := world bbca (replies_with (py "fig = = 1")).
Definition w_llm_down : World := world bbca replies_failing.
Definition w_no_breakdown : World :=
  world no_breakdown (replies_with src_good).

(** The state after the summary section of a run on [w]. *)
Definition after_summary (w : World) : app_state :=
  (segments_summary w (py "BBCA") (after_widgets start)).2.

Definition widgets : list ui_event :=
  [UTextInput (py "Masukkan Ticker (misalnya: BBRI, ASII, BBCA, HMSP)");
   UButton ([128269%N] ++ py " Lihat Insight")].

Definition summary_section : list ui_event :=
  [UHeader ([127970%N] ++ py " Segments Summary for BBCA");
   UExpander ([128161%N] ++ py " Ringkasan Kinerja Finansial");
   UMarkdown (py "1. ... 2. ... 3. ...")].

(** The service answers 404 with a JSON body. *)
Definition w_not_found : World :=
  {| http_get := fun _ _ =>
       Ok {| status_code := 404; body := Some (JObj [(py "detail", JStr (py "Not found."))]) |};
     llm_invoke := llm_invoke w_good;
     to_string := to_string w_good;
     pd_other := pd_other w_good;
     st_pyplot := st_pyplot w_good;
     compile := fun code => if decide (code = []) then Ok [] else compile_text code;
     builtins := builtins w_good;
     sys_modules := sys_modules w_good;
     native_call := native_call w_good;
     native_attr := native_attr w_good;
     recursion_limit := 1000 |}.

(** The model answers the request for the chart with blank lines. *)
Definition w_blank : World :=
  {| http_get := http_get w_good;
     llm_invoke := fun log _ =>
       match length log with
       | 1 => Ok (py "  " ++ nl ++ nl)
       | _ => Ok (py "1. ... 2. ... 3. ...")
       end;
     to_string := to_string w_good;
     pd_other := pd_other w_good;
     st_pyplot := st_pyplot w_good;
     compile := fun code => if decide (code = []) then Ok [] else compile_text code;
     builtins := builtins w_good;
     sys_modules := sys_modules w_good;
     native_call := native_call w_good;
     native_attr := native_attr w_good;
     recursion_limit := 1000 |}.

(** The response of [bbca] without its [symbol]. *)
Definition no_symbol : list (pystr * json) :=
  [(py "financial_year", JNum (PInt 2023));
   (py "revenue_breakdown", JArr (map segment_json segments))].

Definition w_no_symbol : World := world (JObj no_symbol) (replies_with src_good).

(** def loop(): return loop() / fig = loop() *)
Definition src_rec : pystr :=
  join_lines [py "def loop():"; py "    return loop()"; py "fig = loop()"].
Definition ast_rec : program :=
  [SDef "loop" [] [] (ECall (EName "loop") []);
   Simple (SAssign "fig" (ECall (EName "loop") []))].

(** def make(): fig = 1; return fig / make() *)
Definition src_inner_fig : pystr :=
  join_lines [py "def make():"; py "    fig = 1"; py "    return fig"; py "make()"].
Definition ast_inner_fig : program :=
  [SDef "make" [] [SAssign "fig" (ELit (LInt 1))] (EName "fig");
   Simple (SExpr (ECall (EName "make") []))].

Definition compile_more (code : pystr) : result program :=
  if decide (code = src_rec) then Ok ast_rec
  else if decide (code = src_inner_fig) then Ok ast_inner_fig
  else compile_text code.

Definition w_more (code : pystr) : World :=
  {| http_get := http_get w_good;
     llm_invoke := fun log _ => replies_with code (length log);
     to_string := to_string w_good;
     pd_other := pd_other w_good;
     st_pyplot := st_pyplot w_good;
     compile := compile_more;
     builtins := builtins w_good;
     sys_modules := sys_modules w_good;
     native_call := native_call w_good;
     native_attr := native_attr w_good;
     recursion_limit := 1000 |}.

(** import matplotlib.pyplot as plt / globals().update(locals())
    / def make(): return plt.figure() / fig = make() *)
Definition src_copy : pystr :=
  join_lines [py "import matplotlib.pyplot as plt";
              py "globals().update(locals())";
              py "def make():";
              py "    return plt.figure()";
              py "fig = make()"].
Definition ast_copy : program :=
  [Simple (SImport "matplotlib.pyplot" "plt");
   Simple (SExpr (ECall (EAttr (ECall (EName "globals") []) "update")
                    [ECall (EName "locals") []]));
   SDef "make" [] [] plt_figure;
   Simple (SAssign "fig" (ECall (EName "make") []))].

(** import matplotlib.pyplot as plt / def make(): import
    matplotlib.pyplot as plt; return plt.figure() / fig = make() *)
Definition src_local_import : pystr :=
  join_lines [py "import matplotlib.pyplot as plt";
              py "def make():";
              py "    import matplotlib.pyplot as plt";
              py "    return plt.figure()";
              py "fig = make()"].
Definition ast_local_import : program :=
  [Simple (SImport "matplotlib.pyplot" "plt");
   SDef "make" [] [SImport "matplotlib.pyplot" "plt"] plt_figure;
   Simple (SAssign "fig" (ECall (EName "make") []))].

(** from __main__ import plt / fig = plt.figure() *)
Definition src_main : pystr :=
  join_lines [py "from __main__ import plt"; py "fig = plt.figure()"].
Definition ast_main : program :=
  [Simple (SFromImport "__main__" "plt" "plt"); Simple (SAssign "fig" plt_figure)].

(** import builtins / import matplotlib.pyplot as plt
    / setattr(builtins, 'plt', plt) / def make(): return plt.figure()
    / fig = make() *)
Definition src_setattr : pystr :=
  join_lines [py "import builtins";
              py "import matplotlib.pyplot as plt";
              py "setattr(builtins, 'plt', plt)";
              py "def make():";
              py "    return plt.figure()";
              py "fig = make()"].
Definition ast_setattr : program :=
  [Simple (SImport "builtins" "builtins");
   Simple (SImport "matplotlib.pyplot" "plt");
   Simple (SExpr (ECall (EName "setattr")
                    [EName "builtins"; ELit (LStr (py "plt")); EName "plt"]));
   SDef "make" [] [] plt_figure;
   Simple (SAssign "fig" (ECall (EName "make") []))].

(** fig = len *)
Definition src_builtin : pystr := py "fig = len".
Definition ast_builtin : program := [Simple (SAssign "fig" (EName "len"))].

(** import streamlit as st / import matplotlib.pyplot as plt
    / st.pyplot(plt.figure()) *)
Definition src_draws : pystr :=
  join_lines [py "import streamlit as st";
              py "import matplotlib.pyplot as plt";
              py "st.pyplot(plt.figure())"].
Definition ast_draws : program :=
  [Simple (SImport "streamlit" "st");
   Simple (SImport "matplotlib.pyplot" "plt");
   Simple (SExpr (ECall (EAttr (EName "st") "pyplot") [plt_figure]))].

(** import streamlit as st / import matplotlib.pyplot as plt
    / st.pyplot(plt.figure()) / fig = undefined_name *)
Definition src_draws_then_faults : pystr :=
  join_lines [py "import streamlit as st";
              py "import matplotlib.pyplot as plt";
              py "st.pyplot(plt.figure())";
              py "fig = undefined_name"].
Definition ast_draws_then_faults : program :=
  [Simple (SImport "streamlit" "st");
   Simple (SImport "matplotlib.pyplot" "plt");
   Simple (SExpr (ECall (EAttr (EName "st") "pyplot") [plt_figure]));
   Simple (SAssign "fig" (EName "undefined_name"))].

Definition live_table : list (pystr * program) :=
  [(src_copy, ast_copy); (src_local_import, ast_local_import);
   (src_main, ast_main); (src_builtin, ast_builtin);
   (src_setattr, ast_setattr);
   (src_draws, ast_draws); (src_draws_then_faults, ast_draws_then_faults)].

Definition compile_live (code : pystr) : result program :=
  match Pd.assoc code live_table with
  | Some p => Ok p
  | None => compile_more code
  end.

(** Library calls that reach the running code and the page:
    [globals()], [locals()], [dict.update] on the two, [setattr] on
    the builtins module for the name [plt], and streamlit's
    [pyplot]. *)
Definition live_call (id : string) (args : list value) (σ : run_state)
  : result value * run_state :=
  if decide (id = "matplotlib.pyplot.figure") then (Ok (VNative "Figure"), σ)
  else if decide (id = "globals") then (Ok (VNative "globals()"), σ)
  else if decide (id = "locals") then (Ok (VNative "locals()"), σ)
  else if decide (id = "globals().update") then
    match args with
    | [VNative "locals()"] =>
        (Ok (VLit LNone),
         RunState
           (Frame (default ∅ (f_locals (r_frame σ)) ∪ f_globals (r_frame σ))
              (f_locals (r_frame σ)))
           (r_builtins σ) (r_app σ))
    | _ => (Raise (Exn "TypeError" (py "update")), σ)
    end
  else if decide (id = "setattr") then
    match args with
    | [VModule "builtins"; VLit (LStr name); v] =>
        if decide (name = py "plt")
        then (Ok (VLit LNone),
              RunState (r_frame σ) (<["plt" := v]> (r_builtins σ)) (r_app σ))
        else (Raise (Exn "TypeError" (py "setattr")), σ)
    | _ => (Raise (Exn "TypeError" (py "setattr")), σ)
    end
  else if decide (id = "streamlit.pyplot") then
    match args with
    | [v] =>
        (Ok (VLit LNone),
         RunState (r_frame σ) (r_builtins σ)
           (AppState (ui (r_app σ) ++ [UPyplot v]) (llm_log (r_app σ))))
    | _ => (Raise (Exn "TypeError" (py "pyplot")), σ)
    end
  else (Raise (Exn "TypeError" (py "object is not callable")), σ).

(** A world with those calls, in which the model answers the request
    for the chart with [code] in a fence. *)
Definition w_live (code : pystr) : World :=
  {| http_get := http_get w_good;
     llm_invoke := fun log _ => replies_with code (length log);
     to_string := to_string w_good;
     pd_other := pd_other w_good;
     st_pyplot := st_pyplot w_good;
     compile := compile_live;
     builtins := {[ "len" := VNative "len"; "print" := VNative "print";
                    "globals" := VNative "globals";
                    "locals" := VNative "locals";
                    "setattr" := VNative "setattr" ]};
     sys_modules := {[ "matplotlib.pyplot" := pyplot;
                       "streamlit" := {[ "pyplot" := VNative "streamlit.pyplot" ]} ]};
     native_call := live_call;
     native_attr := fun id a =>
       if decide (id = "globals()" /\ a = "update")
       then Some (VNative "globals().update") else None;
     recursion_limit := 1000 |}.

(** The state in which the chart step starts in the examples. *)
Definition before_chart : app_state := AppState [] [py "first"].

(** The state of the run of [src_def] when [make] is called. *)
Definition in_make : run_state :=
  RunState
    (Frame (Interp.with_builtins ∅)
       (Some (<["make" := VFunc [] [] plt_figure]>
              (<["plt" := VModule "matplotlib.pyplot"]> ∅))))
    (builtins w_def)
    (chart_opened before_chart (visualize_prompt (py "<table>") (py "BBCA"))).

Definition chart_expander : ui_event :=
  UExpander ([128202%N] ++ py " Visualisasi Tren Pendapatan").

End Demo.


(** * Facts about stripping and replacing *)

Section StripFacts.
Variable p : N -> bool.

Lemma lstrip_length (s : pystr) : length (Str.lstrip p s) <= length s.
Proof.
  induction s as [|c t IH]; simpl; [lia|].
  destruct (p c); simpl; lia.
Qed.

Lemma rstrip_length (s : pystr) : length (Str.rstrip p s) <= length s.
Proof.
  induction s as [|c t IH]; simpl; [lia|].
  destruct (Str.rstrip p t); [destruct (p c)|]; simpl in *; lia.
Qed.

Lemma lstrip_keeps (c : N) (t : pystr) :
  p c = false -> Str.lstrip p (c :: t) = c :: t.
Proof. intros H. simpl. by rewrite H. Qed.

Lemma rstrip_all (t : pystr) :
  forallb p t = true -> Str.rstrip p t = [].
Proof.
  induction t as [|c t IH]; simpl; [done|].
  intros [Hc Ht]%andb_prop. by rewrite IH, Hc.
Qed.

(** Characters of the set at the end are dropped. *)
Lemma rstrip_app_all (s t : pystr) :
  forallb p t = true -> Str.rstrip p (s ++ t) = Str.rstrip p s.
Proof.
  intros Ht. induction s as [|c s IH]; simpl.
  - by apply rstrip_all.
  - by rewrite IH.
Qed.

(** What is left of a suffix shields everything before it. *)
Lemma rstrip_app_kept (s t : pystr) :
  Str.rstrip p t <> [] -> Str.rstrip p (s ++ t) = s ++ Str.rstrip p t.
Proof.
  intros Ht. induction s as [|c s IH]; simpl; [done|].
  rewrite IH. destruct (s ++ Str.rstrip p t) eqn:E; [|done].
  apply app_eq_nil in E as [_ E]. contradiction.
Qed.

Lemma rstrip_head (c : N) (t : pystr) :
  p c = false -> exists r, Str.rstrip p (c :: t) = c :: r.
Proof.
  intros H. simpl. destruct (Str.rstrip p t) as [|x r].
  - rewrite H. by exists [].
  - by exists (x :: r).
Qed.

Lemma rstrip_idem (s : pystr) :
  Str.rstrip p (Str.rstrip p s) = Str.rstrip p s.
Proof.
  induction s as [|c t IH]; simpl; [done|].
  destruct (Str.rstrip p t) as [|x r] eqn:E.
  - destruct (p c) eqn:Hc; simpl; [done|]. by rewrite Hc.
  - change (Str.rstrip p (c :: x :: r)) with
      (match Str.rstrip p (x :: r) with
       | [] => if p c then [] else [c]
       | r' => c :: r'
       end).
    by rewrite IH.
Qed.

Lemma lstrip_idem (s : pystr) :
  Str.lstrip p (Str.lstrip p s) = Str.lstrip p s.
Proof.
  induction s as [|c t IH]; simpl; [done|].
  destruct (p c) eqn:Hc; [done|]. simpl. by rewrite Hc.
Qed.

(** After [lstrip], [rstrip] cannot uncover a leading character of the
    set. *)
Lemma lstrip_rstrip_lstrip (s : pystr) :
  Str.lstrip p (Str.rstrip p (Str.lstrip p s)) = Str.rstrip p (Str.lstrip p s).
Proof.
  induction s as [|c t IH]; simpl; [done|].
  destruct (p c) eqn:Hc; [done|].
  destruct (rstrip_head c t Hc) as [r Hr]. rewrite Hr.
  by apply lstrip_keeps.
Qed.

Lemma strip_idem (s : pystr) :
  Str.strip p (Str.strip p s) = Str.strip p s.
Proof.
  unfold Str.strip. by rewrite lstrip_rstrip_lstrip, rstrip_idem.
Qed.

Lemma lstrip_app (s t : pystr) :
  Str.lstrip p (s ++ t)
  = if forallb p s then Str.lstrip p t else Str.lstrip p s ++ t.
Proof.
  induction s as [|c s IH]; simpl; [done|].
  destruct (p c); [exact IH|done].
Qed.

Lemma lstrip_all (s : pystr) : forallb p s = true -> Str.lstrip p s = [].
Proof.
  induction s as [|c s IH]; simpl; [done|].
  intros [Hc Hs]%andb_prop. rewrite Hc. by apply IH.
Qed.

(** Characters of the set around a text do not change what [strip]
    returns. *)
Lemma strip_padded (a b s : pystr) :
  forallb p a = true -> forallb p b = true ->
  Str.strip p (a ++ s ++ b) = Str.strip p s.
Proof.
  intros Ha Hb. unfold Str.strip.
  rewrite lstrip_app, Ha, lstrip_app.
  destruct (forallb p s) eqn:Hs.
  - by rewrite (lstrip_all b), (lstrip_all s).
  - by apply rstrip_app_all.
Qed.
End StripFacts.

Section ReplaceFacts.

(** A character outside [old], put at the end, creates no occurrence. *)
Lemma startswith_snoc (old : pystr) (c : N) :
  c ∉ old -> forall s, old <> [] ->
  Str.startswith old (s ++ [c]) = Str.startswith old s.
Proof.
  induction old as [|o os IH]; [done|].
  intros Hc s _. destruct s as [|x xs]; simpl.
  - rewrite bool_decide_eq_false_2; [done|].
    intros ->. apply Hc. by left.
  - destruct os as [|o' os']; [done|].
    rewrite IH; [done| |done].
    intros Hin. apply Hc. by right.
Qed.

Lemma contains_snoc (old : pystr) (c : N) (s : pystr) :
  c ∉ old -> old <> [] ->
  Str.contains old (s ++ [c]) = Str.contains old s.
Proof.
  intros Hc Hne. induction s as [|x xs IH].
  - simpl. destruct old as [|o os]; [done|]. simpl.
    rewrite bool_decide_eq_false_2; [done|].
    intros ->. apply Hc. by left.
  - change ((x :: xs) ++ [c]) with (x :: (xs ++ [c])).
    change (Str.contains old (x :: xs ++ [c])) with
      (Str.startswith old ((x :: xs) ++ [c]) || Str.contains old (xs ++ [c])).
    rewrite startswith_snoc by done. by rewrite IH.
Qed.

(** Where [old] does not occur there is nothing to replace. *)
Lemma replace_scan_absent (old new s : pystr) :
  Str.contains old s = false -> Str.replace_scan old new 0 s = s.
Proof.
  induction s as [|c t IH]; [done|].
  intros H.
  change (Str.contains old (c :: t)) with
    (Str.startswith old (c :: t) || Str.contains old t) in H.
  apply orb_false_elim in H as [H1 H2].
  simpl Str.replace_scan. rewrite H1. by rewrite IH.
Qed.

End ReplaceFacts.

(** * The sanitizer: fences and idempotence *)

Lemma replace_absent (old new s : pystr) :
  old <> [] -> Str.contains old s = false -> Str.replace old new s = s.
Proof.
  intros Hne H. destruct old as [|o os]; [done|].
  by apply replace_scan_absent.
Qed.

(** The fixed points of the sanitizer: a text with no white space and no
    backtick at either end and without the word python. *)
Lemma clean_fixed (t : pystr) :
  Str.strip Str.isspace t = t ->
  Str.strip (Str.in_chars (py "```")) t = t ->
  Str.contains (py "python") t = false ->
  clean_python_code t = t.
Proof.
  intros Hws Hbt Hpy. unfold clean_python_code.
  rewrite Hws, Hbt, replace_absent; done.
Qed.

Lemma strip_space_fenced (code : pystr) :
  Str.strip Str.isspace (fenced code) = fenced code.
Proof.
  unfold Str.strip, fenced.
  change (py "```python" ++ [10%N] ++ code ++ [10%N] ++ py "```")
    with (96%N :: (py "``python" ++ [10%N] ++ code ++ [10%N] ++ py "```")).
  rewrite lstrip_keeps by done.
  change (96%N :: (py "``python" ++ [10%N] ++ code ++ [10%N] ++ py "```"))
    with (py "```python" ++ [10%N] ++ code ++ [10%N] ++ py "```").
  rewrite !app_assoc. rewrite rstrip_app_kept; done.
Qed.

Lemma strip_ticks_fenced (code : pystr) :
  Str.strip (Str.in_chars (py "```")) (fenced code)
  = py "python" ++ [10%N] ++ code ++ [10%N].
Proof.
  unfold Str.strip, fenced.
  change (Str.lstrip (Str.in_chars (py "```"))
            (py "```python" ++ [10%N] ++ code ++ [10%N] ++ py "```"))
    with (py "python" ++ [10%N] ++ code ++ [10%N] ++ py "```").
  change (py "python" ++ [10%N] ++ code ++ [10%N] ++ py "```")
    with ((py "python" ++ [10%N] ++ code) ++ ([10%N] ++ py "```")).
  rewrite rstrip_app_kept by done.
  change (Str.rstrip (Str.in_chars (py "```")) ([10%N] ++ py "```"))
    with [10%N].
  by rewrite <- !app_assoc.
Qed.

Lemma replace_tag (code : pystr) :
  Str.contains (py "python") code = false ->
  Str.replace (py "python") [] (py "python" ++ [10%N] ++ code ++ [10%N])
  = [10%N] ++ code ++ [10%N].
Proof.
  intros H.
  change (Str.replace (py "python") [] (py "python" ++ [10%N] ++ code ++ [10%N]))
    with (10%N :: Str.replace_scan (py "python") [] 0 (code ++ [10%N])).
  rewrite replace_scan_absent; [done|].
  rewrite contains_snoc; [done| |done].
  intros Hin%(bool_decide_pack _). by vm_compute in Hin.
Qed.

(** C4, as the code has it: of a fenced reply whose code body does not
    contain the word python, the sanitizer returns the body with the
    white space at its two ends removed and nothing else changed; a body
    without white space at its ends is returned verbatim. *)
Theorem clean_fenced_verbatim (code : pystr) :
  Str.contains (py "python") code = false ->
  clean_python_code (fenced code) = Str.strip Str.isspace code
  /\ (Str.strip Str.isspace code = code -> clean_python_code (fenced code) = code).
Proof.
  intros Hpy.
  assert (clean_python_code (fenced code) = Str.strip Str.isspace code) as H.
  { unfold clean_python_code.
    rewrite strip_space_fenced, strip_ticks_fenced, replace_tag by done.
    by apply strip_padded. }
  split; [done|]. intros Hws. by rewrite H.
Qed.

Lemma clean_fenced_verbatim_witness :
  clean_python_code (fenced Demo.src_good) = Str.strip Str.isspace Demo.src_good
  /\ (Str.strip Str.isspace Demo.src_good = Demo.src_good ->
      clean_python_code (fenced Demo.src_good) = Demo.src_good).
Proof. apply clean_fenced_verbatim. reflexivity. Defined.

(** The reply of scenario 3 of the specification. *)
Example clean_fenced_good :
  clean_python_code (fenced Demo.src_good) = Demo.src_good.
Proof. reflexivity. Qed.

(** C4 as stated fails: the word python inside the code is deleted, and
    indentation before the first statement is lost. *)
Lemma clean_fenced_not_verbatim :
  clean_python_code (fenced (py "label = 'python'")) <> py "label = 'python'"
  /\ clean_python_code (fenced (py "  fig = 1")) <> py "  fig = 1".
Proof. split; vm_compute; discriminate. Qed.

(** What the sanitizer returns on these two replies. *)
Example clean_deletes_python :
  clean_python_code (fenced (py "label = 'python'")) = py "label = ''".
Proof. reflexivity. Qed.

Example clean_drops_indentation :
  clean_python_code (fenced (py "  fig = 1")) = py "fig = 1".
Proof. reflexivity. Qed.

(** C5, as the code has it: a second pass changes nothing once the first
    result has no backtick at either end and no occurrence of python. *)
Theorem clean_idempotent_when_settled (s : pystr) :
  Str.strip (Str.in_chars (py "```")) (clean_python_code s) = clean_python_code s ->
  Str.contains (py "python") (clean_python_code s) = false ->
  clean_python_code (clean_python_code s) = clean_python_code s.
Proof.
  intros Hbt Hpy. apply clean_fixed; [|done|done].
  unfold clean_python_code at 1 2. apply strip_idem.
Qed.

Lemma clean_idempotent_when_settled_witness :
  clean_python_code (clean_python_code (fenced Demo.src_good))
  = clean_python_code (fenced Demo.src_good).
Proof. apply clean_idempotent_when_settled; reflexivity. Defined.

(** C5 as stated fails: deleting python can assemble a new python, and
    the last strip can uncover a backtick. *)
Lemma clean_not_idempotent :
  clean_python_code (clean_python_code (py "pytpythonhon"))
  <> clean_python_code (py "pytpythonhon").
Proof. vm_compute. discriminate. Qed.

Example clean_assembles_python :
  clean_python_code (py "pytpythonhon") = py "python"
  /\ clean_python_code (py "python") = [].
Proof. split; reflexivity. Qed.

Example clean_uncovers_backtick :
  clean_python_code (py "python `x`") = py "`x"
  /\ clean_python_code (py "`x") = py "x".
Proof. split; reflexivity. Qed.

(** * The interpreter: where names are looked up *)

Section InterpFacts.
Variable w : World.
Variable app : ns.

Lemma run_all_cons {S A} (step : A -> Interp.ST S ()) (a : A) (l : list A) (σ : S) :
  Interp.run_all step (a :: l) σ
  = match step a σ with
    | (Ok _, σ') => Interp.run_all step l σ'
    | (Raise e, σ') => (Raise e, σ')
    end.
Proof. reflexivity. Qed.

Lemma run_all_app {S A} (step : A -> Interp.ST S ()) (l1 l2 : list A) :
  forall σ,
    Interp.run_all step (l1 ++ l2) σ
    = match Interp.run_all step l1 σ with
      | (Ok _, σ') => Interp.run_all step l2 σ'
      | (Raise e, σ') => (Raise e, σ')
      end.
Proof.
  induction l1 as [|a l1 IH]; intros σ; [done|].
  change ((a :: l1) ++ l2) with (a :: (l1 ++ l2)).
  rewrite !run_all_cons.
  destruct (step a σ) as [[[]|e] σ']; [apply IH|done].
Qed.

(** A fault on the first name an expression asks for is the fault of
    the expression, and nothing has happened before it. *)
Lemma eval_first_load {S} (call : value -> list value -> Interp.ST S value)
    (B : S -> ns) (load : string -> S -> result value) (e : expr)
    (x : string) (err : exn) (σ : S) :
  Interp.first_load e = Some x ->
  load x σ = Raise err ->
  Interp.eval_expr w app call B load e σ = (Raise err, σ).
Proof.
  intros Hx Hl. induction e as [l|y|e IH a|f IH args]; simpl in *.
  - discriminate.
  - injection Hx as ->. unfold Interp.read. by rewrite Hl.
  - unfold mbind, Interp.ST_bind. by rewrite IH.
  - unfold mbind, Interp.ST_bind. by rewrite IH.
Qed.

Lemma exec_sstmt_first_load {S} (call : value -> list value -> Interp.ST S value)
    (B : S -> ns) (load : string -> S -> result value)
    (store : string -> value -> S -> S)
    (s : sstmt) (x : string) (err : exn) (σ : S) :
  Interp.stmt_first_load s = Some x ->
  load x σ = Raise err ->
  Interp.exec_sstmt w app call B load store s σ = (Raise err, σ).
Proof.
  intros Hx Hl. destruct s as [y e|m y|m a y|e]; simpl in *; try discriminate.
  - unfold mbind, Interp.ST_bind. by rewrite (eval_first_load _ _ _ _ x err).
  - unfold mbind, Interp.ST_bind. by rewrite (eval_first_load _ _ _ _ x err).
Qed.

Lemma with_builtins_empty :
  Interp.with_builtins ∅ = {[ "__builtins__" := VModule "builtins" ]}.
Proof. reflexivity. Qed.

Lemma load_global_unbound (B G : ns) (x : string) :
  G !! x = None -> B !! x = None ->
  Interp.load_global B G x = Raise (Exn "NameError" (py x)).
Proof. unfold Interp.load_global. by intros -> ->. Qed.

Lemma load_name_unbound (B : ns) (fr : frame) (x : string) :
  f_locals fr ≫= (fun L : ns => L !! x) = None ->
  f_globals fr !! x = None -> B !! x = None ->
  Interp.load_name B fr x = Raise (Exn "NameError" (py x)).
Proof.
  intros HL HG Hb. unfold Interp.load_name. rewrite HL.
  by apply load_global_unbound.
Qed.

Lemma load_name_local (B : ns) (fr : frame) (x : string) (v : value) :
  f_locals fr ≫= (fun L : ns => L !! x) = Some v ->
  Interp.load_name B fr x = Ok v.
Proof. unfold Interp.load_name. by intros ->. Qed.

(** A module-level statement that first asks for a name found neither
    in the locals nor in the globals nor in the builtins is a
    [NameError], raised before anything else happens. *)
Lemma exec_program_unbound (pre rest : program) (st : sstmt)
    (σ0 σ : run_state) (x : string) :
  Interp.exec_program w app pre σ0 = (Ok (), σ) ->
  Interp.stmt_first_load st = Some x ->
  f_locals (r_frame σ) ≫= (fun L : ns => L !! x) = None ->
  f_globals (r_frame σ) !! x = None ->
  r_builtins σ !! x = None ->
  Interp.exec_program w app (pre ++ Simple st :: rest) σ0
  = (Raise (Exn "NameError" (py x)), σ).
Proof.
  intros Hpre Hst HL HG Hb.
  unfold Interp.exec_program in *. rewrite run_all_app, Hpre, run_all_cons.
  unfold Interp.exec_stmt.
  rewrite (exec_sstmt_first_load _ _ _ _ _ x (Exn "NameError" (py x)));
    [done|done|].
  by apply load_name_unbound.
Qed.

(** A call that gets as far as asking for a name that is neither a
    local of the function nor in the globals nor a builtin is a
    [NameError]. *)
Lemma call_function_unbound (d : nat) (params : list string)
    (body : list sstmt) (ret : expr) (args : list value) (m : string)
    (σ1 σ2 : run_state) :
  length params = length args ->
  Interp.reaches_read w app d params body ret args m σ1 σ2 ->
  m ∉ params ++ flat_map Interp.binds body ->
  f_globals (r_frame σ2) !! m = None -> r_builtins σ2 !! m = None ->
  Interp.call_function w app (S d) params body ret args σ1
  = (Raise (Exn "NameError" (py m)), σ2).
Proof.
  intros Hlen Hreach Hloc HG Hb. simpl.
  rewrite bool_decide_eq_true_2 by done.
  assert (forall F, Interp.load_local (params ++ flat_map Interp.binds body)
                      m (F, σ2)
                    = Raise (Exn "NameError" (py m))) as Hload.
  { intros F. unfold Interp.load_local, Interp.load_in_function. simpl.
    rewrite bool_decide_eq_false_2 by done. by apply load_global_unbound. }
  unfold mbind at 1, Interp.ST_bind at 1.
  destruct Hreach as [(before & s & rest & F & -> & Hrun & Hs)|(F & Hrun & Hret)].
  - unfold Interp.run_body in *. rewrite run_all_app, Hrun, run_all_cons.
    by rewrite (exec_sstmt_first_load _ _ _ _ _ m (Exn "NameError" (py m))).
  - rewrite Hrun.
    by rewrite (eval_first_load _ _ _ _ m (Exn "NameError" (py m))).
Qed.

End InterpFacts.

(** * The executor inside [visualize_segments] *)

Section ExecutorFacts.
Variable w : World.
Variable app : ns.

(** Given both dicts, [exec] does not look at the frame it is called
    from. *)
Lemma py_exec_fresh (caller : frame) (code : pystr) (s : app_state) :
  Interp.py_exec w app caller code (Some ∅) (Some ∅) s
  = match compile w code with
    | Raise e => (Raise e, s)
    | Ok prog =>
        match Interp.exec_program w app prog
                (RunState (Frame (Interp.with_builtins ∅) (Some ∅))
                   (builtins w) s) with
        | (Ok _, σ) => (Ok (r_frame σ), r_app σ)
        | (Raise e, σ) => (Raise e, r_app σ)
        end
    end.
Proof. reflexivity. Qed.

(** [visualize_segments], step by step: the code runs with the
    expander open, and what comes after starts from the page and the
    prompts the code left. *)
Lemma visualize_segments_unfold (ticker : pystr) (df : DataFrame)
    (s : app_state) :
  let prompt := visualize_prompt (to_string w df) ticker in
  visualize_segments w app ticker df s =
  match llm_invoke w (llm_log s) prompt with
  | Raise e => (Raise e, AppState (ui s) (llm_log s ++ [prompt]))
  | Ok reply =>
      let code := clean_python_code reply in
      match Interp.py_exec w app (visualize_frame app ticker prompt code) code
              (Some ∅) (Some ∅) (chart_opened s prompt) with
      | (Raise e, s3) => (Raise e, s3)
      | (Ok after, s3) =>
          match dict_getitem (default ∅ (f_locals after)) "fig" with
          | Raise e => (Raise e, s3)
          | Ok fig =>
              match st_pyplot w fig with
              | Raise e => (Raise e, s3)
              | Ok _ =>
                  (Ok (), AppState (ui s3 ++ [UPyplot fig]) (llm_log s3))
              end
          end
      end
  end.
Proof.
  intros prompt. unfold visualize_segments, llm, lift, emit, mbind, M_bind.
  fold prompt. cbv beta iota zeta.
  destruct (llm_invoke w (llm_log s) prompt) as [reply|e]; [|done].
  cbv beta iota zeta. simpl ui. simpl llm_log.
  change (AppState (ui s ++ [UExpander ([128202%N] ++ py " Visualisasi Tren Pendapatan")])
            (llm_log s ++ [prompt])) with (chart_opened s prompt).
  destruct (Interp.py_exec w app _ _ _ _ _) as [[after|e] s3]; [|done].
  destruct (dict_getitem _ _) as [fig|e]; [|done].
  destruct (st_pyplot w fig) as [[]|e]; done.
Qed.

End ExecutorFacts.




(** Had the script called [exec(code)] with no dicts, code that uses
    [plt] without importing it would have found the script's own. *)
Example exec_in_caller_scope_leaks :
  (Interp.py_exec Demo.w_unbound Demo.app_globals
     (Frame Demo.app_globals (Some ∅)) Demo.src_unbound None None
     Demo.before_chart).1
  = Ok (Frame (Interp.with_builtins Demo.app_globals)
          (Some {[ "fig" := VNative "Figure" ]})).
Proof. vm_compute. reflexivity. Qed.




(** A third way round: the program puts [plt] into the builtins module
    with [setattr(builtins, 'plt', plt)]; its function then finds the
    name there. *)
Example function_sees_name_put_in_builtins :
  visualize_segments (Demo.w_live Demo.src_setattr) Demo.app_globals (py "BBCA")
    Demo.frame_bbca Demo.before_chart
  = (Ok (),
     AppState [Demo.chart_expander; UPyplot (VNative "Figure")]
       [py "first"; visualize_prompt (py "<table>") (py "BBCA")]).
Proof. vm_compute. reflexivity. Qed.

(** With one dict for both roles, as in [exec(code, {})], the import is
    bound in the globals and a function that uses it runs. *)
Example exec_single_dict_sees_import :
  match (Interp.py_exec Demo.w_def Demo.app_globals
           (Frame Demo.app_globals (Some ∅)) Demo.src_def (Some ∅) None
           Demo.before_chart).1 with
  | Ok fr => f_globals fr !! "fig"
  | Raise _ => None
  end = Some (VNative "Figure").
Proof. vm_compute. reflexivity. Qed.

(** * The run: what happens to a failure *)

Section RunFacts.
Variable w : World.
Variable app : ns.

(** [main] after a click, section by section.  There is no handler:
    the first failure is the result. *)
Lemma main_unfold (ticker : pystr) (s : app_state) :
  main w app ticker true s =
  match segments_summary w ticker (after_widgets s) with
  | (Raise e, s') => (Raise e, s')
  | (Ok df, s2) =>
      match visualize_segments w app ticker df s2 with
      | (Raise e, s') => (Raise e, s')
      | (Ok _, s3) =>
          match interpret_segments w df s3 with
          | (Raise e, s') => (Raise e, s')
          | (Ok _, s4) => risk_analysis w df s4
          end
      end
  end.
Proof.
  unfold main, mbind, M_bind, emit, after_widgets. simpl.
  destruct (segments_summary w ticker _) as [[df|e] s2]; [|done].
  destruct (visualize_segments w app ticker df s2) as [[[]|e] s3]; [|done].
  destruct (interpret_segments w df s3) as [[[]|e] s4]; done.
Qed.

Lemma main_raises_iff (ticker : pystr) (s s' : app_state) (e : exn) :
  main w app ticker true s = (Raise e, s')
  <-> section_fails w app ticker (after_widgets s) e s'.
Proof.
  rewrite main_unfold. unfold section_fails.
  destruct (segments_summary w ticker _) as [[df|e1] s2].
  - destruct (visualize_segments w app ticker df s2) as [[[]|e2] s3] eqn:Hv.
    + destruct (interpret_segments w df s3) as [[[]|e3] s4] eqn:Hi.
      * split.
        -- intros H. right. exists df, s2. split; [done|]. right.
           exists s3. split; [done|]. right. exists s4. by split.
        -- intros [H|(df' & s2' & Heq & H)]; [done|].
           injection Heq as <- <-. rewrite Hv in H.
           destruct H as [H|(s3' & Heq & H)]; [done|].
           injection Heq as <-. rewrite Hi in H.
           destruct H as [H|(s4' & Heq & H)]; [done|].
           by injection Heq as <-.
      * split.
        -- intros H. right. exists df, s2. split; [done|]. right.
           exists s3. split; [done|]. left. congruence.
        -- intros [H|(df' & s2' & Heq & H)]; [done|].
           injection Heq as <- <-. rewrite Hv in H.
           destruct H as [H|(s3' & Heq & H)]; [done|].
           injection Heq as <-. rewrite Hi in H.
           destruct H as [H|(s4' & Heq & H)]; done.
    + split.
      * intros H. right. exists df, s2. split; [done|]. left. congruence.
      * intros [H|(df' & s2' & Heq & H)]; [done|].
        injection Heq as <- <-. rewrite Hv in H.
        destruct H as [H|(s3' & Heq & H)]; done.
  - split.
    + intros H. left. congruence.
    + intros [H|(df' & s2' & Heq & H)]; congruence.
Qed.

End RunFacts.

(** C7, as the code has it: a failure of any section is not caught.  It
    leaves [main] as it was raised, and the run ends in the state the
    failing section left: the sections before it are on the page, the
    sections after it are not attempted. *)
Theorem section_failure_leaves_main (w : World) (app : ns) (ticker : pystr)
    (s s' : app_state) (e : exn) :
  section_fails w app ticker (after_widgets s) e s' ->
  main w app ticker true s = (Raise e, s').
Proof. apply main_raises_iff. Qed.

Lemma section_failure_leaves_main_witness :
  main Demo.w_llm_down Demo.app_globals (py "BBCA") true Demo.start
  = (Raise (Exn "APIConnectionError" []),
     (visualize_segments Demo.w_llm_down Demo.app_globals (py "BBCA")
        Demo.frame_bbca (Demo.after_summary Demo.w_llm_down)).2).
Proof.
  apply section_failure_leaves_main.
  right. exists Demo.frame_bbca, (Demo.after_summary Demo.w_llm_down).
  split; [vm_compute; reflexivity|].
  left. vm_compute. reflexivity.
Defined.

(** C7 as stated fails: the model call for the chart fails after the
    data was fetched; the exception leaves [main], the page shows the
    summary and nothing else: no error message, no interpretation, no
    risk section. *)
Lemma section_failure_not_contained :
  (main Demo.w_llm_down Demo.app_globals (py "BBCA") true Demo.start).1
  = Raise (Exn "APIConnectionError" [])
  /\ ui (main Demo.w_llm_down Demo.app_globals (py "BBCA") true Demo.start).2
     = Demo.widgets ++ Demo.summary_section.
Proof. split; vm_compute; reflexivity. Qed.

(** C2, as the code has it: a fault of the generated code, at compile
    time or at run time, is not caught and not renamed.  It leaves
    [visualize_segments] and [main] as the exception the interpreter
    raised; the expander was opened before the code ran, the page and
    the prompts are as the code left them, and no later section is
    attempted. *)
Theorem exec_fault_leaves_main (w : World) (app : ns) (ticker : pystr)
    (s s2 s3 : app_state) (df : DataFrame) (reply : pystr) (e : exn) :
  let prompt := visualize_prompt (to_string w df) ticker in
  let code := clean_python_code reply in
  segments_summary w ticker (after_widgets s) = (Ok df, s2) ->
  llm_invoke w (llm_log s2) prompt = Ok reply ->
  Interp.py_exec w app (visualize_frame app ticker prompt code) code
    (Some ∅) (Some ∅) (chart_opened s2 prompt)
  = (Raise e, s3) ->
  visualize_segments w app ticker df s2 = (Raise e, s3)
  /\ main w app ticker true s = (Raise e, s3).
Proof.
  intros prompt code Hseg Hllm Hexec.
  assert (visualize_segments w app ticker df s2 = (Raise e, s3)) as Hv.
  { rewrite visualize_segments_unfold. fold prompt. cbv zeta.
    rewrite Hllm. fold code. by rewrite Hexec. }
  split; [done|].
  by rewrite main_unfold, Hseg, Hv.
Qed.

(** The code draws, then reads a name it has not bound: the fault leaves
    [main], and the page holds what the code drew in the expander. *)
Lemma exec_fault_leaves_main_witness :
  visualize_segments (Demo.w_live Demo.src_draws_then_faults) Demo.app_globals
    (py "BBCA") Demo.frame_bbca
    (Demo.after_summary (Demo.w_live Demo.src_draws_then_faults))
  = (Raise (Exn "NameError" (py "undefined_name")),
     AppState
       (Demo.widgets ++ Demo.summary_section
          ++ [Demo.chart_expander; UPyplot (VNative "Figure")])
       [summary_prompt_with (py "<table>");
        visualize_prompt (py "<table>") (py "BBCA")])
  /\ main (Demo.w_live Demo.src_draws_then_faults) Demo.app_globals (py "BBCA")
       true Demo.start
     = (Raise (Exn "NameError" (py "undefined_name")),
        AppState
          (Demo.widgets ++ Demo.summary_section
             ++ [Demo.chart_expander; UPyplot (VNative "Figure")])
          [summary_prompt_with (py "<table>");
           visualize_prompt (py "<table>") (py "BBCA")]).
Proof.
  apply (exec_fault_leaves_main (Demo.w_live Demo.src_draws_then_faults)
           Demo.app_globals (py "BBCA") Demo.start
           (Demo.after_summary (Demo.w_live Demo.src_draws_then_faults))
           (AppState
              (Demo.widgets ++ Demo.summary_section
                 ++ [Demo.chart_expander; UPyplot (VNative "Figure")])
              [summary_prompt_with (py "<table>");
               visualize_prompt (py "<table>") (py "BBCA")])
           Demo.frame_bbca (fenced Demo.src_draws_then_faults)).
  - vm_compute. reflexivity.
  - vm_compute. reflexivity.
  - vm_compute. reflexivity.
Defined.

(** A text that does not compile: the [SyntaxError] leaves [main], and
    nothing was drawn into the expander. *)
Example syntax_error_leaves_main :
  main Demo.w_syntax Demo.app_globals (py "BBCA") true Demo.start
  = (Raise (Exn "SyntaxError" (py "invalid syntax")),
     chart_opened (Demo.after_summary Demo.w_syntax)
       (visualize_prompt (py "<table>") (py "BBCA"))).
Proof. vm_compute. reflexivity. Qed.

(** C2 as stated fails: the generated code uses [plt] without importing
    it; the chart step fails with the interpreter's [NameError], not with
    an [ExecutionError], and the exception leaves [main]. *)
Lemma exec_fault_not_execution_error :
  ~ fails_with "ExecutionError"
      (visualize_segments Demo.w_unbound Demo.app_globals (py "BBCA")
         Demo.frame_bbca (Demo.after_summary Demo.w_unbound)).1
  /\ (main Demo.w_unbound Demo.app_globals (py "BBCA") true Demo.start).1
     = Raise (Exn "NameError" (py "plt")).
Proof.
  split.
  - intros [arg H]. vm_compute in H. discriminate.
  - vm_compute. reflexivity.
Qed.

(** C3, as the code has it: when the generated code runs to the end and
    leaves no [fig] in its locals, the lookup [exec_locals["fig"]] raises
    [KeyError]; the exception leaves [main], the script draws nothing
    into the expander it opened, the page and the prompts are as the
    code left them, and no later section is attempted. *)
Theorem missing_fig_is_key_error (w : World) (app : ns) (ticker : pystr)
    (s s2 s3 : app_state) (df : DataFrame) (reply : pystr) (after : frame) :
  let prompt := visualize_prompt (to_string w df) ticker in
  let code := clean_python_code reply in
  segments_summary w ticker (after_widgets s) = (Ok df, s2) ->
  llm_invoke w (llm_log s2) prompt = Ok reply ->
  Interp.py_exec w app (visualize_frame app ticker prompt code) code
    (Some ∅) (Some ∅) (chart_opened s2 prompt)
  = (Ok after, s3) ->
  default ∅ (f_locals after) !! "fig" = None ->
  visualize_segments w app ticker df s2
  = (Raise (Exn "KeyError" (py "fig")), s3)
  /\ main w app ticker true s = (Raise (Exn "KeyError" (py "fig")), s3).
Proof.
  intros prompt code Hseg Hllm Hexec Hfig.
  assert (visualize_segments w app ticker df s2
          = (Raise (Exn "KeyError" (py "fig")), s3)) as Hv.
  { rewrite visualize_segments_unfold. fold prompt. cbv zeta.
    rewrite Hllm. fold code. rewrite Hexec.
    unfold dict_getitem. by rewrite Hfig. }
  split; [done|].
  by rewrite main_unfold, Hseg, Hv.
Qed.

(** The code draws the figure itself and binds no [fig]: the run ends in
    [KeyError] with the code's drawing in the expander. *)
Lemma missing_fig_is_key_error_witness :
  visualize_segments (Demo.w_live Demo.src_draws) Demo.app_globals (py "BBCA")
    Demo.frame_bbca (Demo.after_summary (Demo.w_live Demo.src_draws))
  = (Raise (Exn "KeyError" (py "fig")),
     AppState
       (Demo.widgets ++ Demo.summary_section
          ++ [Demo.chart_expander; UPyplot (VNative "Figure")])
       [summary_prompt_with (py "<table>");
        visualize_prompt (py "<table>") (py "BBCA")])
  /\ main (Demo.w_live Demo.src_draws) Demo.app_globals (py "BBCA") true
       Demo.start
     = (Raise (Exn "KeyError" (py "fig")),
        AppState
          (Demo.widgets ++ Demo.summary_section
             ++ [Demo.chart_expander; UPyplot (VNative "Figure")])
          [summary_prompt_with (py "<table>");
           visualize_prompt (py "<table>") (py "BBCA")]).
Proof.
  apply (missing_fig_is_key_error (Demo.w_live Demo.src_draws)
           Demo.app_globals (py "BBCA") Demo.start
           (Demo.after_summary (Demo.w_live Demo.src_draws))
           (AppState
              (Demo.widgets ++ Demo.summary_section
                 ++ [Demo.chart_expander; UPyplot (VNative "Figure")])
              [summary_prompt_with (py "<table>");
               visualize_prompt (py "<table>") (py "BBCA")])
           Demo.frame_bbca (fenced Demo.src_draws)
           (Frame (Interp.with_builtins ∅)
              (Some (<["plt" := VModule "matplotlib.pyplot"]>
                     (<["st" := VModule "streamlit"]> ∅))))).
  - vm_compute. reflexivity.
  - vm_compute. reflexivity.
  - vm_compute. reflexivity.
  - vm_compute. reflexivity.
Defined.

(** C3 as stated fails: the code imports pyplot, draws, and binds no
    [fig]; the chart step fails with [KeyError], not with a
    [MissingArtifactError], and the page shows neither an error message
    nor the two sections after the chart. *)
Lemma missing_fig_not_missing_artifact_error :
  ~ fails_with "MissingArtifactError"
      (visualize_segments Demo.w_no_fig Demo.app_globals (py "BBCA")
         Demo.frame_bbca (Demo.after_summary Demo.w_no_fig)).1
  /\ (main Demo.w_no_fig Demo.app_globals (py "BBCA") true Demo.start).1
     = Raise (Exn "KeyError" (py "fig"))
  /\ ui (main Demo.w_no_fig Demo.app_globals (py "BBCA") true Demo.start).2
     = Demo.widgets ++ Demo.summary_section ++ [Demo.chart_expander].
Proof.
  split; [|split].
  - intros [arg H]. vm_compute in H. discriminate.
  - vm_compute. reflexivity.
  - vm_compute. reflexivity.
Qed.

(** * The dataset *)

Section FrameFacts.

Lemma assoc_here {A} (k : pystr) (v : A) (l : list (pystr * A)) :
  Pd.assoc k ((k, v) :: l) = Some v.
Proof. simpl. by rewrite decide_True. Qed.

Lemma assoc_next {A} (k k' : pystr) (v : A) (l : list (pystr * A)) :
  k <> k' -> Pd.assoc k ((k', v) :: l) = Pd.assoc k l.
Proof. intros H. simpl. by rewrite decide_False. Qed.

Lemma assoc_set_next {A} (k k' : pystr) (v v' : A) (l : list (pystr * A)) :
  k <> k' -> Pd.assoc_set k v ((k', v') :: l) = (k', v') :: Pd.assoc_set k v l.
Proof. intros H. simpl. by rewrite decide_False. Qed.

(** Mapping the values of an association list keeps its keys. *)
Lemma assoc_map_none {A B} (f : pystr * A -> B) (k : pystr)
    (l : list (pystr * A)) :
  Pd.assoc k l = None ->
  Pd.assoc k (map (fun kv => (kv.1, f kv)) l) = None.
Proof.
  induction l as [|[k' v] l IH]; simpl; [done|].
  destruct (decide (k = k')); [done|]. apply IH.
Qed.

Lemma assoc_map_some {A B} (f : pystr * A -> B) (k : pystr) (v : A)
    (l : list (pystr * A)) :
  Pd.assoc k l = Some v ->
  Pd.assoc k (map (fun kv => (kv.1, f kv)) l) = Some (f (k, v)).
Proof.
  induction l as [|[k' v'] l IH]; simpl; [done|].
  destruct (decide (k = k')) as [->|]; [|apply IH].
  by intros [= ->].
Qed.

Lemma assoc_in_keys {A} (k : pystr) (v : A) (l : list (pystr * A)) :
  Pd.assoc k l = Some v -> k ∈ map fst l.
Proof.
  induction l as [|[k' v'] l IH]; simpl; [done|].
  destruct (decide (k = k')) as [->|]; [by left|].
  intros H. right. by apply IH.
Qed.

Lemma reindex_full (vs : list cell) : Pd.reindex (length vs) vs = vs.
Proof.
  unfold Pd.reindex. apply list_eq. intros i.
  rewrite list_lookup_fmap.
  destruct (decide (i < length vs)) as [Hi|Hi].
  - rewrite lookup_seq_lt by done. simpl.
    destruct (lookup_lt_is_Some_2 vs i Hi) as [c Hc]. by rewrite Hc.
  - rewrite lookup_seq_ge by lia. simpl.
    symmetry. apply lookup_ge_None. lia.
Qed.

Lemma reindex_replicate (n : nat) (c : cell) :
  Pd.reindex n (replicate n c) = replicate n c.
Proof.
  pose proof (reindex_full (replicate n c)) as H.
  by rewrite length_replicate in H.
Qed.

Lemma segments_plain (segments : list (pystr * pynum)) :
  forallb (fun x => negb (Pd.is_array x)) (map segment_json segments) = true.
Proof. induction segments as [|sv l IH]; simpl; [done|exact IH]. Qed.

Lemma scalar_plain (j : json) : is_scalar j = true -> Pd.plain_entry j = true.
Proof. by destruct j. Qed.

Lemma scalars_no_lengths (fields : list (pystr * json)) :
  Forall (fun kv : pystr * json => is_scalar kv.2 = true) fields ->
  Pd.array_lengths fields = [].
Proof.
  unfold Pd.array_lengths.
  induction 1 as [|[k v] l Hv Hl IH]; simpl; [done|].
  destruct v; try done; exact IH.
Qed.

(** In an object of the expected shape the breakdown is the only
    array. *)
Lemma expected_shape_lengths (fields : list (pystr * json)) (l : list json) :
  NoDup (map fst fields) ->
  Pd.assoc (py "revenue_breakdown") fields = Some (JArr l) ->
  Forall (fun kv : pystr * json =>
            kv.1 = py "revenue_breakdown" \/ is_scalar kv.2 = true) fields ->
  Pd.array_lengths fields = [length l].
Proof.
  unfold Pd.array_lengths.
  induction fields as [|[k v] fields IH]; simpl; [done|].
  intros Hnd Hrb Hall.
  apply NoDup_cons in Hnd as [Hk Hnd].
  apply Forall_cons in Hall as [Hkv Hall].
  destruct (decide (py "revenue_breakdown" = k)) as [<-|Hne].
  - injection Hrb as ->. simpl. f_equal.
    apply scalars_no_lengths.
    apply Forall_forall. intros [k' v'] Hin.
    apply (proj1 (Forall_forall _ _) Hall) in Hin as Hor.
    destruct Hor as [Heq|Hs]; [|done].
    simpl in Heq. subst k'. exfalso. apply Hk.
    apply list_elem_of_fmap. by exists (py "revenue_breakdown", v').
  - destruct Hkv as [Heq|Hs]; [by simpl in Heq; subst k|].
    simpl in Hs. destruct v; try done; by apply IH.
Qed.

Lemma expected_shape_plain (fields : list (pystr * json))
    (segments : list (pystr * pynum)) :
  NoDup (map fst fields) ->
  Pd.assoc (py "revenue_breakdown") fields
  = Some (JArr (map segment_json segments)) ->
  Forall (fun kv : pystr * json =>
            kv.1 = py "revenue_breakdown" \/ is_scalar kv.2 = true) fields ->
  forallb (fun kv => Pd.plain_entry kv.2) fields = true.
Proof.
  induction fields as [|[k v] fields IH]; simpl; [done|].
  intros Hnd Hrb Hall.
  apply NoDup_cons in Hnd as [Hk Hnd].
  apply Forall_cons in Hall as [Hkv Hall].
  apply andb_true_intro.
  destruct (decide (py "revenue_breakdown" = k)) as [<-|Hne].
  - injection Hrb as ->. split; [apply segments_plain|].
    apply forallb_forall. intros [k' v'] Hin%list_elem_of_In.
    apply (proj1 (Forall_forall _ _) Hall) in Hin as Hor.
    destruct Hor as [Heq|Hs]; [|by apply scalar_plain].
    simpl in Heq. subst k'. exfalso. apply Hk.
    apply list_elem_of_fmap. by exists (py "revenue_breakdown", v').
  - destruct Hkv as [Heq|Hs]; [by simpl in Heq; subst k|].
    split; [by apply scalar_plain|by apply IH].
Qed.

(** A frame made from a dict has no column the dict has no key for. *)
Lemma of_dict_columns (fields : list (pystr * json)) (df : DataFrame)
    (col : pystr) :
  Pd.of_dict fields = Ok df ->
  Pd.assoc col fields = None ->
  Pd.assoc col (columns df) = None.
Proof.
  unfold Pd.of_dict. intros Hdf Hcol.
  destruct fields as [|kv fields]; [by injection Hdf as <-|].
  destruct (Pd.array_lengths (kv :: fields)) as [|n ns]; [done|].
  destruct (forallb (Nat.eqb n) ns); [|done].
  injection Hdf as <-. simpl columns.
  exact (assoc_map_none (fun kv => Pd.column_of n kv.2) col (kv :: fields) Hcol).
Qed.

End FrameFacts.

Section DataFacts.
Variable w : World.

Lemma fetch_data_ok (endpoint : pystr) (resp : Response) (j : json) :
  http_get w (BASE_URL ++ py "/" ++ endpoint) None = Ok resp ->
  raise_for_status resp = Ok () ->
  body resp = Some j ->
  fetch_data w endpoint None = Ok j.
Proof.
  intros Hget Hst Hbody. unfold fetch_data. rewrite Hget. simpl.
  rewrite Hst. simpl. unfold resp_json. by rewrite Hbody.
Qed.

Lemma pd_DataFrame_columns (fields : list (pystr * json)) (df : DataFrame)
    (col : pystr) :
  pd_other_keeps_keys w ->
  pd_DataFrame w (JObj fields) = Ok df ->
  Pd.assoc col fields = None ->
  Pd.assoc col (columns df) = None.
Proof.
  intros Hother Hdf Hcol. unfold pd_DataFrame in Hdf.
  destruct (forallb _ fields).
  - by apply (of_dict_columns fields).
  - by apply (Hother fields).
Qed.

(** The frame of a response of the expected shape: one row per
    segment, one column per key, the scalars repeated on every row. *)
Lemma pd_DataFrame_expected (fields : list (pystr * json)) (symbol : pystr)
    (year : Z) (segments : list (pystr * pynum)) :
  expected_shape fields symbol year segments ->
  pd_DataFrame w (JObj fields)
  = Ok {| nrows := length segments;
          columns :=
            map (fun kv => (kv.1, Pd.column_of (length segments) kv.2)) fields |}.
Proof.
  intros (Hnd & Hsym & Hyear & Hrb & Hall).
  unfold pd_DataFrame.
  rewrite (expected_shape_plain fields segments) by done.
  pose proof (expected_shape_lengths fields _ Hnd Hrb Hall) as Hlen.
  rewrite length_map in Hlen.
  destruct fields as [|kv fields']; [done|].
  unfold Pd.of_dict. by rewrite Hlen.
Qed.

(** [segments_summary], step by step. *)
Lemma segments_summary_unfold (ticker : pystr) (s : app_state) :
  segments_summary w ticker s =
  let s1 := after_header ticker s in
  match fetch_data w (py "company/get-segments/" ++ ticker ++ py "/") None with
  | Raise e => (Raise e, s1)
  | Ok raw =>
      match pd_DataFrame w raw with
      | Raise e => (Raise e, s1)
      | Ok raw_data_segments =>
          match Pd.getitem raw_data_segments (py "revenue_breakdown") with
          | Raise e => (Raise e, s1)
          | Ok breakdown =>
              match Pd.getitem raw_data_segments (py "symbol") with
              | Raise e => (Raise e, s1)
              | Ok symbol =>
                  match Pd.getitem raw_data_segments (py "financial_year") with
                  | Raise e => (Raise e, s1)
                  | Ok year =>
                      let data_segments :=
                        Pd.setitem
                          (Pd.setitem (Pd.of_series breakdown) (py "symbol") symbol)
                          (py "financial_year") year in
                      match format_template summary_prompt
                              (to_string w data_segments) with
                      | Raise e => (Raise e, s1)
                      | Ok prompt =>
                          match llm_invoke w (llm_log s) prompt with
                          | Raise e =>
                              (Raise e, AppState (ui s1) (llm_log s ++ [prompt]))
                          | Ok summary =>
                              (Ok data_segments,
                               AppState
                                 ((ui s1 ++ [UExpander ([128161%N] ++ py " Ringkasan Kinerja Finansial")])
                                    ++ [UMarkdown summary])
                                 (llm_log s ++ [prompt]))
                          end
                      end
                  end
              end
          end
      end
  end.
Proof.
  unfold segments_summary, run_llm, llm, lift, emit, mbind, M_bind.
  cbv beta iota zeta.
  destruct (fetch_data w _ None) as [raw|e]; [|done].
  destruct (pd_DataFrame w raw) as [rds|e]; [|done].
  destruct (Pd.getitem rds (py "revenue_breakdown")) as [b|e]; [|done].
  destruct (Pd.getitem rds (py "symbol")) as [sy|e]; [|done].
  destruct (Pd.getitem rds (py "financial_year")) as [y|e]; [|done].
  destruct (format_template summary_prompt _) as [prompt|e]; [|done].
  cbv beta iota zeta. simpl llm_log.
  destruct (llm_invoke w (llm_log s) prompt) as [summary|e]; done.
Qed.

(** The table is put into the summary template as it is. *)
Lemma format_summary_prompt (table : pystr) :
  format_template summary_prompt table = Ok (summary_prompt_with table).
Proof. vm_compute. reflexivity. Qed.

End DataFacts.

Section PromptFacts.

Lemma format_scan_text (data post : pystr) :
  brace_free post = true -> format_scan data None post = Ok post.
Proof.
  induction post as [|c t IH]; [done|].
  simpl. intros [Hc Ht]%andb_prop.
  apply negb_true_iff, orb_false_elim in Hc as [H1 H2].
  rewrite H1, H2, IH; done.
Qed.

(** A template with the one field [{data}] and no other brace: the
    prompt is the template with the table in the field's place. *)
Lemma format_template_substitutes (before after data : pystr) :
  brace_free before = true -> brace_free after = true ->
  format_template (before ++ py "{data}" ++ after) data
  = Ok (before ++ data ++ after).
Proof.
  intros Hb Ha. unfold format_template.
  induction before as [|c t IH].
  - change (format_scan data None ([] ++ py "{data}" ++ after))
      with (r ← format_scan data None after; Ok (data ++ r)).
    by rewrite format_scan_text.
  - simpl in *. apply andb_prop in Hb as [Hc Ht].
    apply negb_true_iff, orb_false_elim in Hc as [H1 H2].
    rewrite H1, H2, IH; done.
Qed.

End PromptFacts.

Ltac key_neq :=
  let H := fresh in intros H; vm_compute in H; discriminate.

Section DatasetFacts.
Variable w : World.

(** Assigning a series of the frame's own length sets the column and
    changes nothing else. *)
Lemma setitem_aligned (df : DataFrame) (col : pystr) (s : Series) :
  length (s_values s) = nrows df ->
  Forall (fun kc : pystr * list cell => length kc.2 = nrows df) (columns df) ->
  Pd.setitem df col s
  = {| nrows := nrows df;
       columns := Pd.assoc_set col (s_values s) (columns df) |}.
Proof.
  intros Hs Hcols. unfold Pd.setitem.
  assert ((if (nrows df =? 0)%nat then length (s_values s) else nrows df)
          = nrows df) as ->.
  { destruct (nrows df =? 0)%nat; [exact Hs|done]. }
  f_equal. rewrite <- Hs at 1. rewrite reindex_full. f_equal.
  induction Hcols as [|[k vs] l Hk Hl IH]; [done|].
  simpl in *. by rewrite IH, <- Hk, reindex_full.
Qed.

Lemma build_expected_frame (symbol : pystr) (year : Z)
    (segments : list (pystr * pynum)) :
  let n := length segments in
  Pd.setitem
    (Pd.setitem
       (Pd.of_series
          {| s_name := py "revenue_breakdown";
             s_values := map Cell (map segment_json segments) |})
       (py "symbol")
       {| s_name := py "symbol"; s_values := replicate n (Cell (JStr symbol)) |})
    (py "financial_year")
    {| s_name := py "financial_year";
       s_values := replicate n (Cell (JNum (PInt year))) |}
  = expected_frame symbol year segments.
Proof.
  intros n.
  assert (length (map Cell (map segment_json segments)) = n) as Hlen.
  { by rewrite !length_map. }
  rewrite (setitem_aligned (Pd.of_series _)); simpl.
  - rewrite setitem_aligned; simpl.
    + unfold expected_frame. fold n. rewrite Hlen. by rewrite map_map.
    + by rewrite length_replicate, Hlen.
    + repeat constructor; simpl; by rewrite ?length_replicate, ?Hlen.
  - by rewrite length_replicate, Hlen.
  - by repeat constructor.
Qed.

Lemma expected_frame_rows (symbol : pystr) (year : Z)
    (segments : list (pystr * pynum)) (i : nat) :
  i < length segments ->
  Pd.at_ (expected_frame symbol year segments) i (py "symbol")
  = Some (Cell (JStr symbol))
  /\ Pd.at_ (expected_frame symbol year segments) i (py "financial_year")
     = Some (Cell (JNum (PInt year))).
Proof.
  intros Hi. unfold Pd.at_, expected_frame. simpl columns. split.
  - rewrite assoc_next by key_neq. rewrite assoc_here. simpl.
    by apply lookup_replicate_2.
  - rewrite assoc_next by key_neq. rewrite assoc_next by key_neq.
    rewrite assoc_here. simpl. by apply lookup_replicate_2.
Qed.

End DatasetFacts.

Lemma expected_response_shape (symbol : pystr) (year : Z)
    (segments : list (pystr * pynum)) (fields : list (pystr * json)) :
  expected_response symbol year segments = JObj fields ->
  expected_shape fields symbol year segments.
Proof.
  intros [= <-]. repeat split.
  - simpl.
    repeat (apply NoDup_cons_2;
            [intros Hin%(bool_decide_pack _); by vm_compute in Hin|]).
    apply NoDup_nil_2.
  - apply Forall_cons_2; [by right|].
    apply Forall_cons_2; [by right|].
    apply Forall_cons_2; [by left|].
    apply Forall_nil_2.
Qed.

(** C9: on a response of the expected shape the dataset has one row per
    segment, and every row carries the symbol and the financial year of
    the top level of the response. *)
Theorem rows_share_symbol_and_year (w : World) (ticker : pystr) (s : app_state)
    (resp : Response) (fields : list (pystr * json)) (symbol : pystr)
    (year : Z) (segments : list (pystr * pynum)) (reply : pystr) :
  http_get w (segments_url ticker) None = Ok resp ->
  raise_for_status resp = Ok () ->
  body resp = Some (JObj fields) ->
  expected_shape fields symbol year segments ->
  llm_invoke w (llm_log s)
    (summary_prompt_with (to_string w (expected_frame symbol year segments)))
  = Ok reply ->
  exists (df : DataFrame) (s' : app_state),
    segments_summary w ticker s = (Ok df, s')
    /\ nrows df = length segments
    /\ forall i, i < nrows df ->
         Pd.at_ df i (py "symbol") = Some (Cell (JStr symbol))
         /\ Pd.at_ df i (py "financial_year") = Some (Cell (JNum (PInt year))).
Proof.
  intros Hget Hst Hbody Hshape Hllm.
  exists (expected_frame symbol year segments). eexists.
  split; [|split; [done|apply expected_frame_rows]].
  rewrite segments_summary_unfold. cbv zeta.
  rewrite (fetch_data_ok w _ resp (JObj fields)) by done.
  rewrite (pd_DataFrame_expected w fields symbol year segments Hshape).
  destruct Hshape as (Hnd & Hsym & Hyear & Hrb & Hall).
  unfold Pd.getitem. simpl columns.
  rewrite (assoc_map_some (fun kv => Pd.column_of (length segments) kv.2)
             _ _ _ Hrb).
  rewrite (assoc_map_some (fun kv => Pd.column_of (length segments) kv.2)
             _ _ _ Hsym).
  rewrite (assoc_map_some (fun kv => Pd.column_of (length segments) kv.2)
             _ _ _ Hyear).
  simpl Pd.column_of.
  rewrite build_expected_frame, format_summary_prompt, Hllm.
  reflexivity.
Qed.

Lemma rows_share_symbol_and_year_witness :
  exists (df : DataFrame) (s' : app_state),
    segments_summary Demo.w_unbound (py "BBCA") Demo.start = (Ok df, s')
    /\ nrows df = 2
    /\ forall i, i < nrows df ->
         Pd.at_ df i (py "symbol") = Some (Cell (JStr (py "BBCA")))
         /\ Pd.at_ df i (py "financial_year") = Some (Cell (JNum (PInt 2023))).
Proof.
  apply (rows_share_symbol_and_year Demo.w_unbound (py "BBCA") Demo.start
           {| status_code := 200; body := Some Demo.bbca |}
           [(py "symbol", JStr (py "BBCA"));
            (py "financial_year", JNum (PInt 2023));
            (py "revenue_breakdown", JArr (map segment_json Demo.segments))]
           (py "BBCA") 2023 Demo.segments (py "1. ... 2. ... 3. ...")).
  - reflexivity.
  - reflexivity.
  - reflexivity.
  - by apply expected_response_shape.
  - reflexivity.
Defined.

(** The dataset of scenario 1 of the specification. *)
Example bbca_dataset :
  (segments_summary Demo.w_unbound (py "BBCA") Demo.start).1
  = Ok {| nrows := 2;
          columns :=
            [(py "revenue_breakdown",
               [Cell (JObj [(py "source", JStr (py "Retail Banking"));
                            (py "value", JNum (PFloat 5000000000000 0))]);
                Cell (JObj [(py "source", JStr (py "Corporate Banking"));
                            (py "value", JNum (PFloat 3000000000000 0))])]);
             (py "symbol", [Cell (JStr (py "BBCA")); Cell (JStr (py "BBCA"))]);
             (py "financial_year",
               [Cell (JNum (PInt 2023)); Cell (JNum (PInt 2023))])] |}.
Proof. vm_compute. reflexivity. Qed.

(** C6, as the code has it: a response whose body is a JSON object
    without the key [revenue_breakdown] is returned by [fetch_data] as it
    is; the failure comes later, when the frame is built or when the
    column is asked for, before any call of the model.  It leaves [main]:
    the page shows the header and nothing else, and the chart code is
    never asked for. *)
Theorem missing_breakdown_stops_run (w : World) (app : ns) (ticker : pystr)
    (s : app_state) (resp : Response) (fields : list (pystr * json)) :
  pd_other_keeps_keys w ->
  http_get w (segments_url ticker) None = Ok resp ->
  raise_for_status resp = Ok () ->
  body resp = Some (JObj fields) ->
  Pd.assoc (py "revenue_breakdown") fields = None ->
  fetch_data w (py "company/get-segments/" ++ ticker ++ py "/") None
  = Ok (JObj fields)
  /\ exists e,
      (pd_DataFrame w (JObj fields) = Raise e
       \/ e = Exn "KeyError" (py "revenue_breakdown"))
      /\ main w app ticker true s
         = (Raise e, after_header ticker (after_widgets s)).
Proof.
  intros Hother Hget Hst Hbody Hkey.
  assert (fetch_data w (py "company/get-segments/" ++ ticker ++ py "/") None
          = Ok (JObj fields)) as Hfetch.
  { by apply (fetch_data_ok w _ resp). }
  split; [done|].
  destruct (pd_DataFrame w (JObj fields)) as [df|e] eqn:Hdf.
  - exists (Exn "KeyError" (py "revenue_breakdown")). split; [by right|].
    rewrite main_unfold, segments_summary_unfold. cbv zeta.
    rewrite Hfetch, Hdf. unfold Pd.getitem.
    by rewrite (pd_DataFrame_columns w fields df _ Hother Hdf Hkey).
  - exists e. split; [by left|].
    rewrite main_unfold, segments_summary_unfold. cbv zeta.
    by rewrite Hfetch, Hdf.
Qed.

Lemma missing_breakdown_stops_run_witness :
  fetch_data Demo.w_no_breakdown (py "company/get-segments/" ++ py "BBCA" ++ py "/")
    None
  = Ok Demo.no_breakdown
  /\ exists e,
      (pd_DataFrame Demo.w_no_breakdown Demo.no_breakdown = Raise e
       \/ e = Exn "KeyError" (py "revenue_breakdown"))
      /\ main Demo.w_no_breakdown Demo.app_globals (py "BBCA") true Demo.start
         = (Raise e, after_header (py "BBCA") (after_widgets Demo.start)).
Proof.
  apply (missing_breakdown_stops_run Demo.w_no_breakdown Demo.app_globals
           (py "BBCA") Demo.start
           {| status_code := 200; body := Some Demo.no_breakdown |}).
  - intros fields df col H. discriminate H.
  - reflexivity.
  - reflexivity.
  - reflexivity.
  - reflexivity.
Defined.

(** C6 as stated fails: the body has no [revenue_breakdown]; [fetch_data]
    returns it without a failure, the frame constructor raises
    [ValueError], and the page shows the header only, no error section. *)
Lemma missing_breakdown_no_parse_error :
  fetch_data Demo.w_no_breakdown (py "company/get-segments/" ++ py "BBCA" ++ py "/")
    None
  = Ok Demo.no_breakdown
  /\ ~ fails_with "ParseError"
        (main Demo.w_no_breakdown Demo.app_globals (py "BBCA") true Demo.start).1
  /\ ui (main Demo.w_no_breakdown Demo.app_globals (py "BBCA") true Demo.start).2
     = Demo.widgets ++ [UHeader ([127970%N] ++ py " Segments Summary for BBCA")].
Proof.
  split; [|split].
  - reflexivity.
  - intros [arg H]. vm_compute in H. discriminate.
  - vm_compute. reflexivity.
Qed.

(** What the run on that response ends with. *)
Example missing_breakdown_value_error :
  (main Demo.w_no_breakdown Demo.app_globals (py "BBCA") true Demo.start).1
  = Raise (Exn "ValueError"
             (py "If using all scalar values, you must pass an index")).
Proof. vm_compute. reflexivity. Qed.

(** The prompt of a text section holds the table as [to_string] gave
    it. *)
Lemma run_llm_summary_prompt (w : World) (data : DataFrame) (s : app_state) :
  run_llm w summary_prompt data s
  = (llm_invoke w (llm_log s) (summary_prompt_with (to_string w data)),
     AppState (ui s) (llm_log s ++ [summary_prompt_with (to_string w data)])).
Proof.
  unfold run_llm, mbind, M_bind, lift. by rewrite format_summary_prompt.
Qed.

(** * More on the sanitizer *)

Section SanitizerFacts.
Variable p : N -> bool.

Lemma lstrip_sublist (s : pystr) : sublist (Str.lstrip p s) s.
Proof.
  induction s as [|c t IH]; simpl; [done|].
  destruct (p c); [by apply sublist_cons|done].
Qed.

Lemma rstrip_sublist (s : pystr) : sublist (Str.rstrip p s) s.
Proof.
  induction s as [|c t IH]; simpl; [done|].
  destruct (Str.rstrip p t) as [|x r].
  - destruct (p c); [apply sublist_nil_l|].
    apply sublist_skip, sublist_nil_l.
  - by apply sublist_skip.
Qed.

Lemma strip_sublist (s : pystr) : sublist (Str.strip p s) s.
Proof.
  unfold Str.strip. transitivity (Str.lstrip p s).
  - apply rstrip_sublist.
  - apply lstrip_sublist.
Qed.

Lemma lstrip_head_kept (s : pystr) (c : N) :
  head (Str.lstrip p s) = Some c -> p c = false.
Proof.
  induction s as [|x t IH]; simpl; [done|].
  destruct (p x) eqn:Hx; [exact IH|].
  simpl. by intros [= <-].
Qed.

Lemma rstrip_last_kept (s : pystr) (c : N) :
  last (Str.rstrip p s) = Some c -> p c = false.
Proof.
  induction s as [|x t IH]; simpl; [done|].
  destruct (Str.rstrip p t) as [|y r].
  - destruct (p x) eqn:Hx; simpl; [done|]. by intros [= <-].
  - intros H. apply IH. exact H.
Qed.

Lemma strip_head_kept (s : pystr) (c : N) :
  head (Str.strip p s) = Some c -> p c = false.
Proof.
  unfold Str.strip.
  destruct (Str.lstrip p s) as [|x t] eqn:E; [done|].
  assert (p x = false) as Hx.
  { apply (lstrip_head_kept s). by rewrite E. }
  destruct (rstrip_head p x t Hx) as [r ->]. simpl. by intros [= <-].
Qed.

Lemma lstrip_replicate (n : nat) (c : N) (t : pystr) :
  p c = true -> Str.lstrip p (replicate n c ++ t) = Str.lstrip p t.
Proof.
  intros Hc. induction n as [|n IH]; simpl; [done|]. by rewrite Hc.
Qed.

Lemma rstrip_keeps (s : pystr) (c : N) :
  p c = false -> Str.rstrip p (s ++ [c]) = s ++ [c].
Proof.
  intros Hc. rewrite rstrip_app_kept; simpl; by rewrite Hc.
Qed.

Lemma forallb_replicate (n : nat) (c : N) :
  p c = true -> forallb p (replicate n c) = true.
Proof. intros Hc. induction n as [|n IH]; simpl; [done|]. by rewrite Hc. Qed.

End SanitizerFacts.

Lemma replace_scan_sublist (old s : pystr) :
  forall k, sublist (Str.replace_scan old [] k s) s.
Proof.
  induction s as [|c t IH]; intros k; simpl; [done|].
  destruct k as [|k].
  - destruct (Str.startswith old (c :: t)); simpl.
    + apply sublist_cons, IH.
    + apply sublist_skip, IH.
  - apply sublist_cons, IH.
Qed.

(** X5: the sanitizer only deletes: what it returns is the reply with some
    characters left out, in the same order, so it is never longer than
    the reply. *)
Theorem clean_only_deletes (raw_code : pystr) :
  sublist (clean_python_code raw_code) raw_code
  /\ length (clean_python_code raw_code) <= length raw_code.
Proof.
  assert (sublist (clean_python_code raw_code) raw_code) as H.
  { unfold clean_python_code.
    transitivity (Str.replace (py "python") []
                    (Str.strip (Str.in_chars (py "```"))
                       (Str.strip Str.isspace raw_code)));
      [apply strip_sublist|].
    transitivity (Str.strip (Str.in_chars (py "```"))
                    (Str.strip Str.isspace raw_code));
      [apply (replace_scan_sublist (py "python") _ 0)|].
    transitivity (Str.strip Str.isspace raw_code); apply strip_sublist. }
  split; [done|]. by apply sublist_length.
Qed.

(** X6: the code handed to [exec] never starts and never ends with a white
    space character. *)
Theorem clean_ends_not_space (raw_code : pystr) (c : N) :
  head (clean_python_code raw_code) = Some c
  \/ last (clean_python_code raw_code) = Some c ->
  Str.isspace c = false.
Proof.
  unfold clean_python_code. intros [H|H].
  - by apply strip_head_kept in H.
  - unfold Str.strip in H. by apply rstrip_last_kept in H.
Qed.

Lemma clean_ends_not_space_witness :
  Str.isspace 105 = false.
Proof.
  apply (clean_ends_not_space (fenced Demo.src_good) 105).
  left. reflexivity.
Defined.

(** X7: the fence needs no language tag and may have any number of
    backticks: [strip("```")] takes its argument as a set of characters.
    Of a body without the word python between two such fence lines the
    sanitizer returns the body, white space at its ends removed. *)
Theorem clean_any_fence (n m : nat) (code : pystr) :
  Str.contains (py "python") code = false ->
  clean_python_code
    (replicate (S n) 96%N ++ nl ++ code ++ nl ++ replicate (S m) 96%N)
  = Str.strip Str.isspace code.
Proof.
  intros Hpy. unfold clean_python_code.
  assert (Str.strip Str.isspace
            (replicate (S n) 96%N ++ nl ++ code ++ nl ++ replicate (S m) 96%N)
          = replicate (S n) 96%N ++ nl ++ code ++ nl ++ replicate (S m) 96%N)
    as ->.
  { unfold Str.strip.
    change (replicate (S n) 96%N ++ nl ++ code ++ nl ++ replicate (S m) 96%N)
      with (96%N :: (replicate n 96%N ++ nl ++ code ++ nl ++ replicate (S m) 96%N)).
    rewrite lstrip_keeps by done.
    change (96%N :: (replicate n 96%N ++ nl ++ code ++ nl ++ replicate (S m) 96%N))
      with (replicate (S n) 96%N ++ nl ++ code ++ nl ++ replicate (S m) 96%N).
    replace (S m) with (m + 1) by lia.
    rewrite replicate_add. change (replicate 1 96%N) with [96%N].
    rewrite !app_assoc. by rewrite rstrip_keeps. }
  assert (Str.strip (Str.in_chars (py "```"))
            (replicate (S n) 96%N ++ nl ++ code ++ nl ++ replicate (S m) 96%N)
          = nl ++ code ++ nl) as ->.
  { unfold Str.strip. rewrite lstrip_replicate by done.
    change (Str.lstrip (Str.in_chars (py "```"))
              (nl ++ code ++ nl ++ replicate (S m) 96%N))
      with (nl ++ code ++ nl ++ replicate (S m) 96%N).
    change (nl ++ code ++ nl ++ replicate (S m) 96%N)
      with ((nl ++ code) ++ (nl ++ replicate (S m) 96%N)).
    assert (Str.rstrip (Str.in_chars (py "```")) (nl ++ replicate (S m) 96%N)
            = nl) as Hr.
    { change (nl ++ replicate (S m) 96%N) with (10%N :: replicate (S m) 96%N).
      cbn [Str.rstrip].
      by rewrite (rstrip_all _ (replicate (S m) 96%N))
        by (by apply forallb_replicate). }
    rewrite rstrip_app_kept; rewrite Hr; [|done].
    by rewrite <- app_assoc. }
  rewrite replace_absent; [|done|].
  - by apply (strip_padded Str.isspace nl nl).
  - change (nl ++ code ++ nl) with (10%N :: (code ++ [10%N])).
    change (Str.contains (py "python") (10%N :: (code ++ [10%N])))
      with (Str.contains (py "python") (code ++ [10%N])).
    rewrite contains_snoc; [done| |done].
    intros Hin%(bool_decide_pack _). by vm_compute in Hin.
Qed.

Lemma clean_any_fence_witness :
  clean_python_code
    (replicate 4 96%N ++ nl ++ Demo.src_good ++ nl ++ replicate 1 96%N)
  = Str.strip Str.isspace Demo.src_good.
Proof. apply (clean_any_fence 3 0). reflexivity. Defined.

(** * More on fetching *)

(** X1: [fetch_data] returns a body exactly when the request went through,
    the status is outside 400..599 and the body is JSON. *)
Theorem fetch_data_returns_iff (w : World) (endpoint : pystr)
    (params : option json) (j : json) :
  fetch_data w endpoint params = Ok j
  <-> exists resp,
      http_get w (BASE_URL ++ py "/" ++ endpoint) params = Ok resp
      /\ (status_code resp < 400 \/ 600 <= status_code resp)%Z
      /\ body resp = Some j.
Proof.
  unfold fetch_data, raise_for_status, resp_json. split.
  - destruct (http_get w _ params) as [resp|e]; simpl; [|done].
    destruct ((400 <=? status_code resp) && (status_code resp <? 600))%Z
      eqn:Hc; simpl; [done|].
    destruct (body resp) as [j'|] eqn:Hb; [|done].
    intros [= ->]. exists resp. split; [done|]. split; [|done].
    apply andb_false_iff in Hc as [Hc|Hc]; [left|right]; lia.
  - intros (resp & Hget & Hst & Hb). rewrite Hget. simpl.
    assert (((400 <=? status_code resp) && (status_code resp <? 600))%Z = false)
      as ->; [|by simpl; rewrite Hb].
    apply andb_false_iff. destruct Hst; [left|right]; lia.
Qed.

(** X2: a response with a status from 400 to 599 is an [HTTPError] whatever
    its body holds: the body of an error response is never parsed and
    never returned. *)
Theorem fetch_data_error_status (w : World) (endpoint : pystr)
    (params : option json) (resp : Response) :
  http_get w (BASE_URL ++ py "/" ++ endpoint) params = Ok resp ->
  (400 <= status_code resp < 600)%Z ->
  fetch_data w endpoint params = Raise (Exn "HTTPError" []).
Proof.
  intros Hget [H1 H2]. unfold fetch_data, raise_for_status.
  rewrite Hget. simpl.
  assert (((400 <=? status_code resp) && (status_code resp <? 600))%Z = true)
    as ->; [|done].
  apply andb_true_iff. lia.
Qed.

Lemma fetch_data_error_status_witness :
  fetch_data Demo.w_not_found (py "company/get-segments/BBCA/") None
  = Raise (Exn "HTTPError" []).
Proof.
  apply (fetch_data_error_status Demo.w_not_found _ None
           {| status_code := 404;
              body := Some (JObj [(py "detail", JStr (py "Not found."))]) |}).
  - reflexivity.
  - split; reflexivity || (intros H; discriminate H).
Defined.

(** X3: whatever makes the fetch fail (transport, status, body), the run
    ends there with that exception: the page holds the widgets and the
    header, no frame is built and the model is not called. *)
Theorem fetch_failure_ends_run (w : World) (app : ns) (ticker : pystr)
    (s : app_state) (e : exn) :
  fetch_data w (py "company/get-segments/" ++ ticker ++ py "/") None = Raise e ->
  main w app ticker true s = (Raise e, after_header ticker (after_widgets s)).
Proof.
  intros H. rewrite main_unfold, segments_summary_unfold. cbv zeta.
  by rewrite H.
Qed.

Lemma fetch_failure_ends_run_witness :
  main Demo.w_not_found Demo.app_globals (py "BBCA") true Demo.start
  = (Raise (Exn "HTTPError" []),
     after_header (py "BBCA") (after_widgets Demo.start)).
Proof. apply fetch_failure_ends_run. reflexivity. Defined.

(** * More on the prompts *)

(** X11: [run_llm] on a template with the one field [{data}]: the model gets
    the template with the table in the field's place.  The table is put
    in as it is, braces in it are not read as fields. *)
Theorem run_llm_substitutes (w : World) (before after : pystr)
    (data : DataFrame) (s : app_state) :
  brace_free before = true -> brace_free after = true ->
  run_llm w (before ++ py "{data}" ++ after) data s
  = (llm_invoke w (llm_log s) (before ++ to_string w data ++ after),
     AppState (ui s) (llm_log s ++ [before ++ to_string w data ++ after])).
Proof.
  intros Hb Ha. unfold run_llm, mbind, M_bind, lift.
  by rewrite format_template_substitutes.
Qed.

Lemma run_llm_substitutes_witness :
  run_llm Demo.w_good (py "Data: " ++ py "{data}" ++ py " end") Demo.frame_bbca
    Demo.start
  = (Ok (py "1. ... 2. ... 3. ..."),
     AppState [] [py "Data: " ++ py "<table>" ++ py " end"]).
Proof.
  apply (run_llm_substitutes Demo.w_good (py "Data: ") (py " end")
           Demo.frame_bbca Demo.start); reflexivity.
Defined.

Section TextSections.
Variable w : World.

Lemma format_interpret_prompt (table : pystr) :
  format_template interpret_prompt table = Ok (interpret_prompt_with table).
Proof. vm_compute. reflexivity. Qed.

Lemma format_risk_prompt (table : pystr) :
  format_template risk_prompt table = Ok (risk_prompt_with table).
Proof. vm_compute. reflexivity. Qed.

(** What a text section does with the expander's [label] once the
    model was asked with [prompt]. *)
Lemma text_section_unfold (template prompt label : pystr)
    (data : DataFrame) (s : app_state) :
  format_template template (to_string w data) = Ok prompt ->
  (text ← run_llm w template data;
   _ ← emit (UExpander label);
   emit (UMarkdown text)) s
  = match llm_invoke w (llm_log s) prompt with
    | Ok text =>
        (Ok (), AppState (ui s ++ [UExpander label; UMarkdown text])
                  (llm_log s ++ [prompt]))
    | Raise e => (Raise e, AppState (ui s) (llm_log s ++ [prompt]))
    end.
Proof.
  intros Hf. unfold run_llm, llm, lift, emit, mbind, M_bind. rewrite Hf.
  cbv beta iota zeta. simpl llm_log.
  destruct (llm_invoke w (llm_log s) prompt) as [text|e]; [|done].
  simpl. by rewrite <- app_assoc.
Qed.

Lemma interpret_segments_unfold (data : DataFrame) (s : app_state) :
  interpret_segments w data s
  = match llm_invoke w (llm_log s) (interpret_prompt_with (to_string w data)) with
    | Ok text =>
        (Ok (),
         AppState (ui s ++ [UExpander ([128270%N] ++ py " Interpretasi Segmen");
                            UMarkdown text])
           (llm_log s ++ [interpret_prompt_with (to_string w data)]))
    | Raise e =>
        (Raise e,
         AppState (ui s) (llm_log s ++ [interpret_prompt_with (to_string w data)]))
    end.
Proof.
  apply (text_section_unfold interpret_prompt). apply format_interpret_prompt.
Qed.

Lemma risk_analysis_unfold (data : DataFrame) (s : app_state) :
  risk_analysis w data s
  = match llm_invoke w (llm_log s) (risk_prompt_with (to_string w data)) with
    | Ok text =>
        (Ok (),
         AppState (ui s ++ [UExpander ([9888%N; 65039%N]
                                         ++ py " Analisis Risiko Keuangan");
                            UMarkdown text])
           (llm_log s ++ [risk_prompt_with (to_string w data)]))
    | Raise e =>
        (Raise e,
         AppState (ui s) (llm_log s ++ [risk_prompt_with (to_string w data)]))
    end.
Proof.
  apply (text_section_unfold risk_prompt). apply format_risk_prompt.
Qed.

End TextSections.

(** X12: the two text sections after the chart: the template always formats,
    exactly one prompt goes to the model, and it holds the table.  When
    the model answers, the answer is shown as it came, in a new expander;
    when the call fails, the exception is passed on and the page is left
    as it was, without an expander. *)
Theorem text_sections_behaviour (w : World) (data : DataFrame) (s : app_state) :
  interpret_segments w data s
  = match llm_invoke w (llm_log s) (interpret_prompt_with (to_string w data)) with
    | Ok text =>
        (Ok (),
         AppState (ui s ++ [UExpander ([128270%N] ++ py " Interpretasi Segmen");
                            UMarkdown text])
           (llm_log s ++ [interpret_prompt_with (to_string w data)]))
    | Raise e =>
        (Raise e,
         AppState (ui s) (llm_log s ++ [interpret_prompt_with (to_string w data)]))
    end
  /\ risk_analysis w data s
     = match llm_invoke w (llm_log s) (risk_prompt_with (to_string w data)) with
       | Ok text =>
           (Ok (),
            AppState (ui s ++ [UExpander ([9888%N; 65039%N]
                                            ++ py " Analisis Risiko Keuangan");
                               UMarkdown text])
              (llm_log s ++ [risk_prompt_with (to_string w data)]))
       | Raise e =>
           (Raise e,
            AppState (ui s) (llm_log s ++ [risk_prompt_with (to_string w data)]))
       end.
Proof.
  split; [apply interpret_segments_unfold|apply risk_analysis_unfold].
Qed.

(** * More on the chart step *)

(** X8: a reply of which the sanitizer leaves nothing is not refused: the
    empty text is handed to [exec], which runs the empty program, and
    the lookup of [fig] in the empty locals is what fails. *)
Theorem empty_code_is_key_error (w : World) (app : ns) (ticker : pystr)
    (df : DataFrame) (s : app_state) (reply : pystr) :
  llm_invoke w (llm_log s) (visualize_prompt (to_string w df) ticker) = Ok reply ->
  clean_python_code reply = [] ->
  compile w [] = Ok [] ->
  visualize_segments w app ticker df s
  = (Raise (Exn "KeyError" (py "fig")),
     chart_opened s (visualize_prompt (to_string w df) ticker)).
Proof.
  intros Hllm Hclean Hc.
  rewrite visualize_segments_unfold. cbv zeta.
  rewrite Hllm, Hclean, py_exec_fresh, Hc. reflexivity.
Qed.

Lemma empty_code_is_key_error_witness :
  visualize_segments Demo.w_blank Demo.app_globals (py "BBCA") Demo.frame_bbca
    (AppState [] [py "first"])
  = (Raise (Exn "KeyError" (py "fig")),
     chart_opened (AppState [] [py "first"])
       (visualize_prompt (py "<table>") (py "BBCA"))).
Proof.
  apply (empty_code_is_key_error Demo.w_blank Demo.app_globals (py "BBCA")
           Demo.frame_bbca (AppState [] [py "first"]) (py "  " ++ nl ++ nl));
    reflexivity.
Defined.

(** X9: the chart step returns exactly when the model answered, the
    cleaned answer compiled and ran to the end, left a [fig] in its
    locals dict and streamlit accepted that value; the page then ends
    with it, after whatever the code itself did to the page. *)
Theorem chart_drawn_iff (w : World) (app : ns) (ticker : pystr)
    (df : DataFrame) (s s' : app_state) :
  visualize_segments w app ticker df s = (Ok (), s')
  <-> exists reply after s3 fig,
        llm_invoke w (llm_log s) (visualize_prompt (to_string w df) ticker)
        = Ok reply
        /\ Interp.py_exec w app
             (visualize_frame app ticker
                (visualize_prompt (to_string w df) ticker)
                (clean_python_code reply))
             (clean_python_code reply) (Some ∅) (Some ∅)
             (chart_opened s (visualize_prompt (to_string w df) ticker))
           = (Ok after, s3)
        /\ default ∅ (f_locals after) !! "fig" = Some fig
        /\ st_pyplot w fig = Ok ()
        /\ s' = AppState (ui s3 ++ [UPyplot fig]) (llm_log s3).
Proof.
  rewrite visualize_segments_unfold. cbv zeta. split.
  - destruct (llm_invoke w (llm_log s) _) as [reply|e]; [|discriminate].
    destruct (Interp.py_exec w app _ _ _ _ _) as [[after|e] s3] eqn:Hexec;
      [|discriminate].
    unfold dict_getitem.
    destruct (default ∅ (f_locals after) !! "fig") as [fig|] eqn:Hfig;
      [|discriminate].
    destruct (st_pyplot w fig) as [[]|e] eqn:Hplot; [|discriminate].
    intros [= <-]. by exists reply, after, s3, fig.
  - intros (reply & after & s3 & fig & -> & -> & Hfig & Hplot & ->).
    unfold dict_getitem. by rewrite Hfig, Hplot.
Qed.

(** A [fig] assigned inside a function is a local of that function: the
    locals dict of the run has none, and the lookup fails. *)
Example fig_inside_function_is_not_found :
  (visualize_segments (Demo.w_more Demo.src_inner_fig) Demo.app_globals
     (py "BBCA") Demo.frame_bbca Demo.before_chart).1
  = Raise (Exn "KeyError" (py "fig")).
Proof. vm_compute. reflexivity. Qed.

(** A function of the generated code cannot call itself: its own name
    is in the locals dict of the run, where its body does not look. *)
Example recursive_function_cannot_see_itself :
  (visualize_segments (Demo.w_more Demo.src_rec) Demo.app_globals
     (py "BBCA") Demo.frame_bbca Demo.before_chart).1
  = Raise (Exn "NameError" (py "loop")).
Proof. vm_compute. reflexivity. Qed.
(** * More on the run *)



(** What the generated code does to the page goes through the library
    calls it makes: a relation between states of the page that those
    calls respect is respected by the whole run of the code. *)
Section Respects.
Variable w : World.
Variable app : ns.
Variable R : app_state -> app_state -> Prop.
Hypothesis R_refl : forall s, R s s.
Hypothesis R_trans : forall s1 s2 s3, R s1 s2 -> R s2 s3 -> R s1 s3.
Hypothesis R_native :
  forall id args σ, R (r_app σ) (r_app (native_call w id args σ).2).

Lemma respects_bind {S A B : Type} (π : S -> app_state)
    (m : Interp.ST S A) (f : A -> Interp.ST S B) :
  respects R π m -> (forall a, respects R π (f a)) ->
  respects R π (Interp.ST_bind A B f m).
Proof.
  intros Hm Hf σ. unfold Interp.ST_bind.
  specialize (Hm σ). destruct (m σ) as [[a|e] σ']; simpl in *; [|done].
  exact (R_trans _ _ _ Hm (Hf a σ')).
Qed.

Lemma respects_ret {S A : Type} (π : S -> app_state) (a : A) :
  respects R π (Interp.ST_ret A a : Interp.ST S A).
Proof. intros σ. apply R_refl. Qed.

Lemma respects_read {S A : Type} (π : S -> app_state) (f : S -> result A) :
  respects R π (Interp.read f).
Proof. intros σ. apply R_refl. Qed.

Lemma respects_raise {S A : Type} (π : S -> app_state) (e : exn) :
  respects R π (Interp.raise e : Interp.ST S A).
Proof. intros σ. apply R_refl. Qed.

Lemma respects_update {S : Type} (π : S -> app_state) (f : S -> S) :
  (forall σ, π (f σ) = π σ) -> respects R π (Interp.update f).
Proof. intros Hf σ. simpl. rewrite Hf. apply R_refl. Qed.

Lemma respects_run_all {S A : Type} (π : S -> app_state)
    (step : A -> Interp.ST S ()) (l : list A) :
  (forall a, respects R π (step a)) -> respects R π (Interp.run_all step l).
Proof.
  intros Hstep. induction l as [|a t IH].
  - apply respects_ret.
  - exact (respects_bind π (step a) (fun _ => Interp.run_all step t)
             (Hstep a) (fun _ => IH)).
Qed.

Section Eval.
Context {S : Type}.
Variable π : S -> app_state.
Variable call : value -> list value -> Interp.ST S value.
Variable B : S -> ns.
Variable load : string -> S -> result value.
Variable store : string -> value -> S -> S.
Hypothesis call_respects : forall f args, respects R π (call f args).
Hypothesis store_keeps : forall x v σ, π (store x v σ) = π σ.

Lemma respects_eval_expr (e : expr) :
  respects R π (Interp.eval_expr w app call B load e).
Proof.
  revert e. fix IH 1. intros [l|x|e' a|f args]; cbn [Interp.eval_expr].
  - apply respects_ret.
  - apply respects_read.
  - apply respects_bind; [apply IH|]. intros v. apply respects_read.
  - apply respects_bind; [apply IH|]. intros fv.
    apply respects_bind; [|intros vs; apply call_respects].
    induction args as [|a t IHt]; cbn [Interp.eval_list].
    + apply respects_ret.
    + apply respects_bind; [apply IH|]. intros v.
      apply respects_bind; [apply IHt|]. intros vs. apply respects_ret.
Qed.

Lemma respects_exec_sstmt (s : sstmt) :
  respects R π (Interp.exec_sstmt w app call B load store s).
Proof.
  destruct s as [x e|m x|m a x|e]; cbn [Interp.exec_sstmt].
  - apply respects_bind; [apply respects_eval_expr|].
    intros v. by apply respects_update.
  - apply respects_bind; [apply respects_read|]. intros B0.
    destruct (Interp.find_module w app B0 m);
      [by apply respects_update|apply respects_raise].
  - apply respects_bind; [apply respects_read|]. intros B0.
    destruct (Interp.find_module w app B0 m) as [attrs|];
      [|apply respects_raise].
    destruct (attrs !! a); [by apply respects_update|apply respects_raise].
  - apply respects_bind; [apply respects_eval_expr|].
    intros _. apply respects_ret.
Qed.
End Eval.

Lemma respects_call_value
    (call_def : list string -> list sstmt -> expr -> list value
                -> Interp.ST run_state value) :
  (forall params body ret args, respects R r_app (call_def params body ret args)) ->
  forall f args, respects R r_app (Interp.call_value w call_def f args).
Proof.
  intros Hdef [l|m|id|params body ret] args; cbn [Interp.call_value];
    [apply respects_raise|apply respects_raise| |apply Hdef].
  intros σ. apply R_native.
Qed.

Lemma respects_in_function
    (call : value -> list value -> Interp.ST run_state value) :
  (forall f args, respects R r_app (call f args)) ->
  forall f args,
    respects R (fun Fσ : ns * run_state => r_app Fσ.2)
      (Interp.in_function call f args).
Proof.
  intros Hcall f args [F σ]. unfold Interp.in_function. simpl.
  specialize (Hcall f args σ). by destruct (call f args σ).
Qed.

Lemma respects_call_function (depth : nat) (params : list string)
    (body : list sstmt) (ret : expr) (args : list value) :
  respects R r_app (Interp.call_function w app depth params body ret args).
Proof.
  revert params body ret args.
  induction depth as [|d IH]; intros params body ret args;
    cbn [Interp.call_function]; [apply respects_raise|].
  destruct (bool_decide _); [|apply respects_raise].
  intros σ.
  pose proof (respects_in_function _ (respects_call_value _ IH)) as Hcall.
  pose proof (respects_bind (fun Fσ : ns * run_state => r_app Fσ.2)
                (Interp.run_body w app
                   (Interp.call_value w (Interp.call_function w app d))
                   (params ++ flat_map Interp.binds body) body)
                (fun _ =>
                   Interp.eval_expr w app
                     (Interp.in_function
                        (Interp.call_value w (Interp.call_function w app d)))
                     (fun Fσ => r_builtins Fσ.2)
                     (Interp.load_local (params ++ flat_map Interp.binds body))
                     ret)) as Hb.
  assert (respects R (fun Fσ : ns * run_state => r_app Fσ.2)
            (Interp.run_body w app
               (Interp.call_value w (Interp.call_function w app d))
               (params ++ flat_map Interp.binds body) body)) as Hbody.
  { unfold Interp.run_body. apply respects_run_all. intros s.
    by apply respects_exec_sstmt. }
  specialize (Hb Hbody (fun _ => respects_eval_expr _ _ _ _ Hcall _)
                (list_to_map (zip params args), σ)).
  unfold mbind. cbv beta in Hb.
  destruct (Interp.ST_bind _ _ _ _ _) as [r Fσ]. exact Hb.
Qed.

Lemma respects_exec_program (prog : program) :
  respects R r_app (Interp.exec_program w app prog).
Proof.
  apply respects_run_all. intros [s|f params body ret]; cbn [Interp.exec_stmt].
  - apply respects_exec_sstmt; [|done].
    apply respects_call_value, respects_call_function.
  - by apply respects_update.
Qed.

Lemma respects_py_exec (caller : frame) (code : pystr)
    (globals locals : option ns) (s : app_state) :
  R s (Interp.py_exec w app caller code globals locals s).2.
Proof.
  unfold Interp.py_exec.
  destruct (compile w code) as [prog|e]; [|apply R_refl].
  pose proof (respects_exec_program prog) as H.
  match goal with
  | |- context [Interp.exec_program w app prog ?σ0] =>
      specialize (H σ0); destruct (Interp.exec_program w app prog σ0)
        as [[[]|e] σ]
  end; exact H.
Qed.

End Respects.

Section Continues.
Variable w : World.
Variable app : ns.

Lemma continues_refl (s : app_state) : continues s s 0.
Proof. exists [], []. by rewrite !app_nil_r. Qed.

Lemma continues_trans (s1 s2 s3 : app_state) (n m : nat) :
  continues s1 s2 n -> continues s2 s3 m -> continues s1 s3 (n + m).
Proof.
  intros (e1 & p1 & Hu1 & Hl1 & Hn) (e2 & p2 & Hu2 & Hl2 & Hm).
  exists (e1 ++ e2), (p1 ++ p2).
  rewrite Hu2, Hu1, Hl2, Hl1, !app_assoc, length_app. repeat split; lia.
Qed.

Lemma continues_mono (s s' : app_state) (n m : nat) :
  n <= m -> continues s s' n -> continues s s' m.
Proof.
  intros Hnm (e & p & Hu & Hl & Hn). exists e, p. repeat split; [done|done|lia].
Qed.

Ltac continues_here :=
  unfold continues, after_header, chart_opened; simpl;
  rewrite <- ?app_assoc;
  eexists _, _;
  split; [first [reflexivity | symmetry; apply app_nil_r]|];
  split; [first [reflexivity | symmetry; apply app_nil_r]|simpl; lia].

Lemma segments_summary_continues (ticker : pystr) (s : app_state) :
  continues s (segments_summary w ticker s).2 1.
Proof.
  rewrite segments_summary_unfold. cbv zeta.
  destruct (fetch_data w _ None) as [raw|e]; [|continues_here].
  destruct (pd_DataFrame w raw) as [rds|e]; [|continues_here].
  destruct (Pd.getitem rds (py "revenue_breakdown")) as [b|e]; [|continues_here].
  destruct (Pd.getitem rds (py "symbol")) as [sy|e]; [|continues_here].
  destruct (Pd.getitem rds (py "financial_year")) as [y|e]; [|continues_here].
  destruct (format_template summary_prompt _) as [prompt|e]; [|continues_here].
  destruct (llm_invoke w (llm_log s) prompt) as [summary|e]; continues_here.
Qed.

(** The generated code sends the model nothing when the library calls
    it can make send nothing. *)
Lemma py_exec_continues (caller : frame) (code : pystr)
    (globals locals : option ns) (s : app_state) :
  natives_only_draw w ->
  continues s (Interp.py_exec w app caller code globals locals s).2 0.
Proof.
  intros Hw.
  apply (respects_py_exec w app (fun s s' => continues s s' 0)).
  - apply continues_refl.
  - intros s1 s2 s3 H1 H2. exact (continues_trans s1 s2 s3 0 0 H1 H2).
  - exact Hw.
Qed.

Lemma visualize_segments_continues (ticker : pystr) (df : DataFrame)
    (s : app_state) :
  natives_only_draw w ->
  continues s (visualize_segments w app ticker df s).2 1.
Proof.
  intros Hw. rewrite visualize_segments_unfold. cbv zeta.
  destruct (llm_invoke w (llm_log s) _) as [reply|e]; [|continues_here].
  assert (continues s
            (chart_opened s (visualize_prompt (to_string w df) ticker)) 1)
    as Hopen by continues_here.
  match goal with
  | |- context [Interp.py_exec w app ?c ?code ?g ?l ?s0] =>
      pose proof (py_exec_continues c code g l s0 Hw) as Hexec;
      destruct (Interp.py_exec w app c code g l s0) as [[after|e] s3]
  end; simpl in Hexec;
    pose proof (continues_trans _ _ _ 1 0 Hopen Hexec) as H3; simpl in H3;
    [|exact H3].
  destruct (dict_getitem _ _) as [fig|e]; [|exact H3].
  destruct (st_pyplot w fig) as [[]|e]; [|exact H3].
  simpl. refine (continues_trans _ _ _ 1 0 H3 _).
  exists [UPyplot fig], []. simpl. by rewrite app_nil_r.
Qed.

Lemma interpret_segments_continues (df : DataFrame) (s : app_state) :
  continues s (interpret_segments w df s).2 1.
Proof.
  rewrite interpret_segments_unfold.
  destruct (llm_invoke w (llm_log s) _) as [text|e]; continues_here.
Qed.

Lemma risk_analysis_continues (df : DataFrame) (s : app_state) :
  continues s (risk_analysis w df s).2 1.
Proof.
  rewrite risk_analysis_unfold.
  destruct (llm_invoke w (llm_log s) _) as [text|e]; continues_here.
Qed.

Lemma after_widgets_continues (s : app_state) :
  continues s (after_widgets s) 0.
Proof. continues_here. Qed.

End Continues.

(** The library calls of the example world draw on the page, copy
    namespaces, extend the builtins, and send the model nothing. *)
Lemma live_call_only_draws (code : pystr) : natives_only_draw (Demo.w_live code).
Proof.
  intros id args σ. simpl. unfold Demo.live_call.
  repeat case_decide; try apply continues_refl.
  - repeat (first [ by (simpl; apply continues_refl)
                  | match goal with
                    | |- context [match ?x with _ => _ end] => destruct x
                    end ]).
  - repeat (first [ by (simpl; apply continues_refl)
                  | match goal with
                    | |- context [match ?x with _ => _ end] => destruct x
                    end ]).
  - destruct args as [|v [|? ?]]; try apply continues_refl.
    exists [UPyplot v], []. simpl. by rewrite app_nil_r.
Qed.



(** * More on the dataset *)

Section BreakdownFacts.
Variable w : World.

(** The frame of an object whose only array is the breakdown. *)
Lemma pd_DataFrame_breakdown (fields : list (pystr * json))
    (segments : list (pystr * pynum)) :
  NoDup (map fst fields) ->
  Pd.assoc (py "revenue_breakdown") fields
  = Some (JArr (map segment_json segments)) ->
  Forall (fun kv : pystr * json =>
            kv.1 = py "revenue_breakdown" \/ is_scalar kv.2 = true) fields ->
  pd_DataFrame w (JObj fields)
  = Ok {| nrows := length segments;
          columns :=
            map (fun kv => (kv.1, Pd.column_of (length segments) kv.2)) fields |}.
Proof.
  intros Hnd Hrb Hall. unfold pd_DataFrame.
  rewrite (expected_shape_plain fields segments) by done.
  pose proof (expected_shape_lengths fields _ Hnd Hrb Hall) as Hlen.
  rewrite length_map in Hlen.
  destruct fields as [|kv fields']; [done|].
  unfold Pd.of_dict. by rewrite Hlen.
Qed.

End BreakdownFacts.

(** X4: a response that has its breakdown but lacks [symbol], or has
    [symbol] and lacks [financial_year], is not noticed by [fetch_data]:
    the frame is built, and the column lookup raises [KeyError] with the
    name of the first missing key.  The run ends there, with the header
    on the page and no prompt sent. *)
Theorem missing_tag_is_key_error (w : World) (app : ns) (ticker : pystr)
    (s : app_state) (resp : Response) (fields : list (pystr * json))
    (segments : list (pystr * pynum)) (key : pystr) :
  http_get w (segments_url ticker) None = Ok resp ->
  raise_for_status resp = Ok () ->
  body resp = Some (JObj fields) ->
  NoDup (map fst fields) ->
  Pd.assoc (py "revenue_breakdown") fields
  = Some (JArr (map segment_json segments)) ->
  Forall (fun kv : pystr * json =>
            kv.1 = py "revenue_breakdown" \/ is_scalar kv.2 = true) fields ->
  (Pd.assoc (py "symbol") fields = None /\ key = py "symbol")
  \/ (is_Some (Pd.assoc (py "symbol") fields)
      /\ Pd.assoc (py "financial_year") fields = None
      /\ key = py "financial_year") ->
  main w app ticker true s
  = (Raise (Exn "KeyError" key), after_header ticker (after_widgets s)).
Proof.
  intros Hget Hst Hbody Hnd Hrb Hall Hmiss.
  rewrite main_unfold, segments_summary_unfold. cbv zeta.
  rewrite (fetch_data_ok w _ resp (JObj fields)) by done.
  rewrite (pd_DataFrame_breakdown w fields segments) by done.
  unfold Pd.getitem. simpl columns.
  rewrite (assoc_map_some (fun kv => Pd.column_of (length segments) kv.2)
             _ _ _ Hrb).
  destruct Hmiss as [[Hsym ->]|([v Hsym] & Hyear & ->)].
  - by rewrite (assoc_map_none (fun kv => Pd.column_of (length segments) kv.2)
                  _ _ Hsym).
  - rewrite (assoc_map_some (fun kv => Pd.column_of (length segments) kv.2)
               _ _ _ Hsym).
    by rewrite (assoc_map_none (fun kv => Pd.column_of (length segments) kv.2)
                  _ _ Hyear).
Qed.

Lemma missing_tag_is_key_error_witness :
  main Demo.w_no_symbol Demo.app_globals (py "BBCA") true Demo.start
  = (Raise (Exn "KeyError" (py "symbol")),
     after_header (py "BBCA") (after_widgets Demo.start)).
Proof.
  apply (missing_tag_is_key_error Demo.w_no_symbol Demo.app_globals (py "BBCA")
           Demo.start {| status_code := 200; body := Some (JObj Demo.no_symbol) |}
           Demo.no_symbol Demo.segments (py "symbol")).
  - reflexivity.
  - reflexivity.
  - reflexivity.
  - unfold Demo.no_symbol. simpl.
    repeat (apply NoDup_cons_2;
            [intros Hin%(bool_decide_pack _); by vm_compute in Hin|]).
    apply NoDup_nil_2.
  - reflexivity.
  - apply Forall_cons_2; [by right|].
    apply Forall_cons_2; [by left|].
    apply Forall_nil_2.
  - left. split; reflexivity.
Defined.
